(** * weather-thingy: a shallow embedding of the weather dashboard

  The development follows the three TypeScript units of the repository:

  - [WeatherService]  : [src/lib/weather-service.ts], the normaliser that
    turns OpenWeatherMap 2.5 payloads into the record shown by the UI;
  - [UseGeolocation]  : the [useGeolocation] hook, i.e. the permission /
    position state machine with its New York fallback;
  - [WeatherApp]      : the page component, i.e. the two handlers
    [fetchWeatherByCoordinates] and [handleSearch].

  JavaScript numbers are IEEE-754 binary64 values and are modelled by
  Rocq's primitive floats, so [Math.round], [<], [||] and the literals of
  the source mean here exactly what they mean in the browser.  Remote
  calls are answered by an oracle ([Network]); every call is recorded in a
  log, and exceptions are explicit ([JsError + A]). *)

From Stdlib Require Import ZArith Floats Uint63 String Ascii List Bool Lia.
From Stdlib Require Import DecimalString Permutation.
Import ListNotations.

Set Warnings "-inexact-float".

Local Open Scope string_scope.
Local Open Scope list_scope.
Local Open Scope Z_scope.

(* ================================================================== *)
(** * JavaScript primitives used by the sources                       *)
(* ================================================================== *)

Module Js.

(** A JS [number]. *)
Definition number : Type := float.

Definition isNaN (x : number) : bool := negb (PrimFloat.eqb x x).

(** [ToBoolean] on numbers: [+0], [-0] and [NaN] are falsy. *)
Definition truthy (x : number) : bool :=
  negb (PrimFloat.eqb x 0%float || isNaN x).

(** [v || d] where [v] is a possibly absent ([undefined]) number. *)
Definition orDefault (v : option number) (d : number) : number :=
  match v with
  | Some x => if truthy x then x else d
  | None => d
  end.

(** The integral double of an integer of magnitude below 2^53. *)
Definition ofZ (n : Z) : number :=
  if n <? 0
  then PrimFloat.opp (PrimFloat.of_uint63 (Uint63.of_Z (- n)))
  else PrimFloat.of_uint63 (Uint63.of_Z n).

(** [Math.round]: non-finite and integral values are returned as they
    are; otherwise the closest integer, ties towards +infinity, with the
    sign of zero kept for results in [-0.5, 0).  A finite double with a
    negative exponent [e] is [m * 2^e] with [m < 2^53], so the rounded
    integer is computed exactly as [floor ((2 m + 2^-e) / 2^(1-e))]. *)
Definition Math_round (x : number) : number :=
  match Prim2SF x with
  | S754_finite s m e =>
      if 0 <=? e then x
      else
        let d := 2 ^ (- e) in
        let num := if s then Z.neg m else Z.pos m in
        let n := (2 * num + d) / (2 * d) in
        if n =? 0 then (if s then (-0)%float else 0%float) else ofZ n
  | _ => x
  end.

Definition Math_abs (x : number) : number := PrimFloat.abs x.

(** Template-literal rendering of an integer-valued number. *)
Definition showZ (n : Z) : string := NilZero.string_of_int (Z.to_int n).

(** A thrown value: an [Error] object with its [name] and [message]. *)
Record JsError : Type := mkError { err_name : string; err_message : string }.

Definition Error (msg : string) : JsError := mkError "Error" msg.
Definition TypeError (msg : string) : JsError := mkError "TypeError" msg.
Definition RangeError (msg : string) : JsError := mkError "RangeError" msg.

(** Synchronous code that may throw. *)
Definition Result (A : Type) : Type := (JsError + A)%type.

Definition rbind {A B} (m : Result A) (k : A -> Result B) : Result B :=
  match m with
  | inl e => inl e
  | inr a => k a
  end.

(** ** Strings

    A string is its sequence of UTF-8 bytes.  Case mapping and white
    space are those of the ASCII range: other bytes are left as they are
    by [toUpperCase] and [toLowerCase] and are not white space. *)

Definition upperChar (c : ascii) : ascii :=
  let n := nat_of_ascii c in
  if ((97 <=? n) && (n <=? 122))%nat then ascii_of_nat (n - 32) else c.

Definition lowerChar (c : ascii) : ascii :=
  let n := nat_of_ascii c in
  if ((65 <=? n) && (n <=? 90))%nat then ascii_of_nat (n + 32) else c.

Fixpoint mapString (f : ascii -> ascii) (s : string) : string :=
  match s with
  | EmptyString => EmptyString
  | String c s' => String (f c) (mapString f s')
  end.

Definition toUpperCase : string -> string := mapString upperChar.
Definition toLowerCase : string -> string := mapString lowerChar.

(** White space and line terminators removed by [String.prototype.trim]:
    TAB, LF, VT, FF, CR and SPACE. *)
Definition isWhiteSpace (c : ascii) : bool :=
  let n := nat_of_ascii c in
  ((9 <=? n) && (n <=? 13) || (n =? 32))%nat.

Fixpoint trimStart (s : string) : string :=
  match s with
  | EmptyString => EmptyString
  | String c s' => if isWhiteSpace c then trimStart s' else s
  end.

(** Drops the trailing white space: a character is kept when it is not
    white space or when something is kept after it. *)
Fixpoint trimEnd (s : string) : string :=
  match s with
  | EmptyString => EmptyString
  | String c s' =>
      match trimEnd s' with
      | EmptyString => if isWhiteSpace c then EmptyString else String c EmptyString
      | t => String c t
      end
  end.

Definition trim (s : string) : string := trimEnd (trimStart s).

(** Truthiness of a string: only the empty string is falsy. *)
Definition nonEmpty (s : string) : bool :=
  match s with
  | EmptyString => false
  | String _ _ => true
  end.


(** [s.includes(sub)]. *)
Fixpoint includes (sub s : string) : bool :=
  prefix sub s ||
  match s with
  | EmptyString => false
  | String _ s' => includes sub s'
  end.

(** ** Dates

    A [Date] is its time value in milliseconds since the epoch.  The
    host's time zone is a function giving the offset (in milliseconds,
    east of Greenwich) in force at an instant; [now] is the reading of
    the wall clock taken by [new Date()]. *)

Record Clock : Type := mkClock { utcOffset : Z -> Z; now : Z }.

Definition msPerDay : Z := 86400000.
Definition msPerHour : Z := 3600000.

(** Time values outside +-8.64e15 ms make an invalid [Date]. *)
Definition validTime (t : Z) : bool := Z.abs t <=? 8640000000000000.

(** [date.toISOString().split('T')[0]]: the UTC calendar date.  The text
    YYYY-MM-DD is a one-to-one rendering of the day number since the
    epoch, which is what is kept here. *)
Definition utcDate (t : Z) : Z := t / msPerDay.

Definition localTime (c : Clock) (t : Z) : Z := t + utcOffset c t.

(** [date.getHours()], [date.getDay()] (0 = Sunday; the epoch fell on a
    Thursday) and the local time of day in milliseconds. *)
Definition getHours (c : Clock) (t : Z) : Z := (localTime c t / msPerHour) mod 24.
Definition getDay (c : Clock) (t : Z) : Z := (localTime c t / msPerDay + 4) mod 7.
Definition timeOfDay (c : Clock) (t : Z) : Z := localTime c t mod msPerDay.

(** [new Date(new Date().setDate(new Date().getDate() + k)).getDay()]:
    the week day of the local calendar date [k] days after today. *)
Definition getDayAfter (c : Clock) (k : Z) : Z := (getDay c (now c) + k) mod 7.

End Js.

Import Js.

(* ================================================================== *)
(** * Remote calls: the oracle, the log and the [async] monad          *)
(* ================================================================== *)

Module Net.

(** The four endpoints the application calls, with the query parameters
    that the source interpolates into the URL. *)
Inductive Request : Type :=
| GetWeather (lat lon : number)      (* data/2.5/weather  *)
| GetForecast (lat lon : number)     (* data/2.5/forecast *)
| GetDirect (q : string)             (* geo/1.0/direct    *)
| GetReverse (lat lon : number).     (* geo/1.0/reverse   *)

(** What [fetch] settles to: a rejection, or a response whose [json()]
    may itself reject. *)
Record Response (A : Type) : Type :=
  mkResponse { ok : bool; status : Z; json : Result A }.
Arguments mkResponse {A}.
Arguments ok {A}.
Arguments status {A}.
Arguments json {A}.

Inductive Fetched (A : Type) : Type :=
| Rejected (e : JsError)
| Responded (r : Response A).
Arguments Rejected {A}.
Arguments Responded {A}.

(** An [async] computation: the requests it issued, in order, and the
    value it resolved to or the error it rejected with. *)
Definition Async (A : Type) : Type := (list Request * Result A)%type.

Definition ret {A} (a : A) : Async A := ([], inr a).
Definition throw {A} (e : JsError) : Async A := ([], inl e).

Definition bind {A B} (m : Async A) (k : A -> Async B) : Async B :=
  match m with
  | (log, inl e) => (log, inl e)
  | (log, inr a) => let (log', r) := k a in (log ++ log', r)
  end.

(** [try { m } catch (e) { h e }]. *)
Definition tryCatch {A} (m : Async A) (h : JsError -> Async A) : Async A :=
  match m with
  | (log, inl e) => let (log', r) := h e in (log ++ log', r)
  | (log, inr a) => (log, inr a)
  end.

Definition lift {A} (r : Result A) : Async A := ([], r).

(** [await fetch(url)]: the call is logged, the oracle answers. *)
Definition fetch {A} (req : Request) (answer : Fetched A) : Async (Response A) :=
  ([req], match answer with
          | Rejected e => inl e
          | Responded r => inr r
          end).

Definition requests {A} (m : Async A) : list Request := fst m.
Definition outcome {A} (m : Async A) : Result A := snd m.

End Net.

Import Net.

Declare Scope async_scope.
Delimit Scope async_scope with async.
Notation "x <- m ;; k" := (Net.bind m (fun x => k))
(at level 61, m at next level, right associativity) : async_scope.
Notation "'check' b 'orThrow' e ;; k" := (if b then k else Net.throw e)
(at level 61, b at next level, e at next level, right associativity) : async_scope.

(* ================================================================== *)
(** * src/lib/weather-service.ts                                       *)
(* ================================================================== *)

Module WeatherService.

(** ** The application's records *)

Record ForecastDay : Type :=
  mkForecastDay { day : string; temp : number; condition : string }.

Record WeatherData : Type := mkWeatherData {
  location : string;
  temperature : number;
  wd_condition : string;
  high : number;
  low : number;
  humidity : number;
  wind : number;
  visibility : number;
  forecast : list ForecastDay
}.

(** ** Upstream payloads (OpenWeatherMap 2.5), as far as they are read *)

Record Weather : Type := mkWeather { w_main : string }.

Record Main : Type := mkMain {
  main_temp : number;
  main_temp_min : number;
  main_temp_max : number;
  main_humidity : number
}.

(** [data/2.5/weather]; [visibility] may be missing from the payload. *)
Record CurrentData : Type := mkCurrentData {
  cd_weather : list Weather;
  cd_main : Main;
  cd_wind_speed : number;
  cd_visibility : option number
}.

(** One 3-hourly entry of [data/2.5/forecast]; [dt] is in epoch seconds. *)
Record ForecastItem : Type := mkForecastItem {
  dt : Z;
  fi_temp : number;
  fi_weather : list Weather
}.

Record ForecastData : Type := mkForecastData { fd_list : list ForecastItem }.

(** [geo/1.0/direct] and [geo/1.0/reverse]: a possibly [null] array. *)
Record GeoMatch : Type := mkGeoMatch { gm_lat : number; gm_lon : number }.
Record Place : Type := mkPlace { pl_name : option string; pl_country : string }.

Record Network : Type := mkNetwork {
  weatherApi : number -> number -> Fetched CurrentData;
  forecastApi : number -> number -> Fetched ForecastData;
  directApi : string -> Fetched (option (list GeoMatch));
  reverseApi : number -> number -> Fetched (option (list Place))
}.

Definition DAYS : list string := ["SUN"; "MON"; "TUE"; "WED"; "THU"; "FRI"; "SAT"].

(** [DAYS[i]] for a week-day index. *)
Definition dayName (i : Z) : string := nth (Z.to_nat i) DAYS "undefined".

(** ** formatWeatherDataFromAPI25 *)

(** [forecastsByDay]: an object keyed by date, whose keys are enumerated
    in insertion order. *)
Definition ByDay : Type := list (Z * list ForecastItem).

Fixpoint lookup (d : Z) (m : ByDay) : option (list ForecastItem) :=
  match m with
  | [] => None
  | (k, items) :: rest => if k =? d then Some items else lookup d rest
  end.

(** [if (!m[d]) m[d] = []; m[d].push(item)]. *)
Fixpoint pushItem (d : Z) (item : ForecastItem) (m : ByDay) : ByDay :=
  match m with
  | [] => [(d, [item])]
  | (k, items) :: rest =>
      if k =? d then (k, items ++ [item]) :: rest
      else (k, items) :: pushItem d item rest
  end.

Definition itemTime (item : ForecastItem) : Z := dt item * 1000.

(** One round of the first [forEach]; [toISOString] throws on an invalid
    date. *)
Definition groupStep (acc : Result ByDay) (item : ForecastItem) : Result ByDay :=
  rbind acc (fun m =>
    if validTime (itemTime item)
    then inr (pushItem (utcDate (itemTime item)) item m)
    else inl (RangeError "Invalid time value")).

Definition groupByDay (l : list ForecastItem) : Result ByDay :=
  fold_left groupStep l (inr []).

(** The predicate given to [items.find]. *)
Definition aroundNoon (c : Clock) (item : ForecastItem) : bool :=
  (11 <=? getHours c (itemTime item)) && (getHours c (itemTime item) <=? 13).

(** [items.find(...) || items[0]]. *)
Definition noonForecast (c : Clock) (items : list ForecastItem) : option ForecastItem :=
  match find (aroundNoon c) items with
  | Some item => Some item
  | None => hd_error items
  end.

(** The entry pushed for a chosen item. *)
Definition toForecastDay (c : Clock) (item : ForecastItem) : Result ForecastDay :=
  match fi_weather item with
  | [] => inl (TypeError "Cannot read properties of undefined (reading 'main')")
  | w :: _ =>
      inr (mkForecastDay (dayName (getDay c (itemTime item)))
                         (Math_round (fi_temp item))
                         (toLowerCase (w_main w)))
  end.

(** One round of the second [forEach]. *)
Definition pickStep (c : Clock) (m : ByDay)
    (acc : Result (list ForecastDay)) (d : Z) : Result (list ForecastDay) :=
  rbind acc (fun processed =>
    match lookup d m with
    | None => inl (TypeError "Cannot read properties of undefined (reading 'find')")
    | Some items =>
        match noonForecast c items with
        | None => inl (TypeError "Cannot read properties of undefined (reading 'dt')")
        | Some item =>
            rbind (toForecastDay c item) (fun fd => inr (processed ++ [fd]))
        end
    end).

Definition pickForecasts (c : Clock) (m : ByDay) : Result (list ForecastDay) :=
  fold_left (pickStep c m) (firstn 5 (map fst m)) (inr []).

(** The entry made up for a missing day when [n] entries are present. *)
Definition fillerDay (c : Clock) (currentTemp : number) (n : nat) : ForecastDay :=
  mkForecastDay
    (dayName (getDayAfter c (if (0 <? n)%nat then Z.of_nat n else 1)))
    (Math_round currentTemp)
    "cloudy".

(** [while (processedForecast.length < 5) { push }], unrolled at most
    [fuel] times; [fillMissing_exit] shows that five rounds always reach
    the exit of the loop. *)
Fixpoint fillMissing (fuel : nat) (c : Clock) (currentTemp : number)
    (processed : list ForecastDay) : list ForecastDay :=
  match fuel with
  | O => processed
  | S fuel' =>
      if (length processed <? 5)%nat
      then fillMissing fuel' c currentTemp
             (processed ++ [fillerDay c currentTemp (length processed)])
      else processed
  end.

Definition formatWeatherDataFromAPI25 (c : Clock)
    (currentData : CurrentData) (forecastData : ForecastData) : Result WeatherData :=
  rbind (groupByDay (fd_list forecastData)) (fun forecastsByDay =>
  rbind (pickForecasts c forecastsByDay) (fun picked =>
    let processedForecast :=
      fillMissing 5 c (main_temp (cd_main currentData)) picked in
    match cd_weather currentData with
    | [] => inl (TypeError "Cannot read properties of undefined (reading 'main')")
    | currentWeather :: _ =>
        inr {| location := "Current Location";
               temperature := Math_round (main_temp (cd_main currentData));
               wd_condition := toUpperCase (w_main currentWeather);
               high := Math_round (main_temp_max (cd_main currentData));
               low := Math_round (main_temp_min (cd_main currentData));
               humidity := main_humidity (cd_main currentData);
               wind := Math_round (cd_wind_speed currentData);
               visibility :=
                 Math_round (orDefault (cd_visibility currentData) 10000 / 1000)%float;
               forecast := processedForecast |}
    end)).

(** ** fetchWeatherData *)

Local Open Scope async_scope.

Definition fetchWeatherData (net : Network) (c : Clock) (lat lon : number)
    : Async WeatherData :=
  tryCatch
    (currentResponse <- fetch (GetWeather lat lon) (weatherApi net lat lon) ;;
     check ok currentResponse
       orThrow Error ("Weather API 2.5 current error: " ++ showZ (status currentResponse)) ;;
     forecastResponse <- fetch (GetForecast lat lon) (forecastApi net lat lon) ;;
     check ok forecastResponse
       orThrow Error ("Weather API 2.5 forecast error: " ++ showZ (status forecastResponse)) ;;
     currentData <- lift (json currentResponse) ;;
     forecastData <- lift (json forecastResponse) ;;
     lift (formatWeatherDataFromAPI25 c currentData forecastData))
    (fun error => throw error).

(** ** fetchWeatherByCity *)

Definition fetchWeatherByCity (net : Network) (c : Clock) (city : string)
    : Async WeatherData :=
  tryCatch
    (geoResponse <- fetch (GetDirect city) (directApi net city) ;;
     check ok geoResponse
       orThrow Error ("Geocoding API error: " ++ showZ (status geoResponse)) ;;
     geoData <- lift (json geoResponse) ;;
     match geoData with
     | None | Some [] => throw (Error ("City not found: " ++ city))
     | Some (g :: _) => fetchWeatherData net c (gm_lat g) (gm_lon g)
     end)
    (fun error => throw error).

(** ** getCityFromCoords *)

(** [Math.abs(lat - 40.7128) < 0.01 && Math.abs(lon - (-74.0060)) < 0.01],
    the test written in both places that return the New York label. *)
Definition nearNewYork (lat lon : number) : bool :=
  PrimFloat.ltb (Math_abs (lat - 40.7128)%float) 0.01%float
  && PrimFloat.ltb (Math_abs (lon - (- 74.0060))%float) 0.01%float.

(** The body of the [try] block. *)
Definition getCityFromCoords_try (net : Network) (lat lon : number) : Async string :=
  response <- fetch (GetReverse lat lon) (reverseApi net lat lon) ;;
  if negb (ok response) then
    if nearNewYork lat lon then ret "NEW YORK, US" else ret "Current Location"
  else
    data <- lift (json response) ;;
    match data with
    | None | Some [] => ret "Current Location"
    | Some (p :: _) =>
        match pl_name p with
        | None =>
            throw (TypeError "Cannot read properties of undefined (reading 'toUpperCase')")
        | Some name => ret (toUpperCase name ++ ", " ++ pl_country p)%string
        end
    end.

(** The [catch] block. *)
Definition getCityFromCoords_catch (lat lon : number) (error : JsError) : Async string :=
  if nearNewYork lat lon then ret "NEW YORK, US" else ret "Current Location".

Definition getCityFromCoords (net : Network) (lat lon : number) : Async string :=
  tryCatch (getCityFromCoords_try net lat lon) (getCityFromCoords_catch lat lon).

End WeatherService.

(* ================================================================== *)
(** * The [useGeolocation] hook                                        *)
(* ================================================================== *)

Module UseGeolocation.

Record Coordinates : Type := mkCoordinates { lat : number; lon : number }.

Record GeolocationState : Type := mkGeolocationState {
  coordinates : option Coordinates;
  error : option string;
  loading : bool;
  permissionGranted : option bool;      (* null = not asked *)
  permissionState : option string
}.

Definition initialState : GeolocationState :=
  mkGeolocationState None None false None None.

Record GeoOptions : Type := mkGeoOptions {
  enableHighAccuracy : bool;
  timeout : Z;
  maximumAge : Z
}.

(** ** The browser *)

Inductive PermissionQuery : Type :=
| QueryRejects (e : JsError)
| QueryResolves (state : string).

(** What [getCurrentPosition] does with its callbacks: it calls the
    success callback, calls the error callback with a
    [GeolocationPositionError], or throws. *)
Inductive PositionOutcome : Type :=
| PositionFound (latitude longitude accuracy : number)
| PositionFailed (code : Z) (message : string)
| PositionThrows (e : JsError).

Record Navigator : Type := mkNavigator {
  geolocation : bool;                       (* is [navigator.geolocation] there *)
  permissions : option PermissionQuery;     (* [None]: no Permissions API *)
  getCurrentPosition : GeoOptions -> PositionOutcome
}.

(** ** Observable steps of a run *)

Inductive Effect : Type :=
| SetState (s : GeolocationState)
| QueryPermission
| RequestPosition (options : GeoOptions).

(** A piece of the hook's code: it updates the state and leaves a trace. *)
Definition Run : Type := GeolocationState -> GeolocationState * list Effect.

Definition setState (f : GeolocationState -> GeolocationState) : Run :=
  fun prev => (f prev, [SetState (f prev)]).

Definition emit (e : Effect) : Run := fun s => (s, [e]).

Definition andThen (a b : Run) : Run :=
  fun s => let (s1, t1) := a s in
           let (s2, t2) := b s1 in
           (s2, t1 ++ t2).

(** The refs of the hook together with its state. *)
Record Hook : Type := mkHook {
  state : GeolocationState;
  attemptCount : Z;
  isFirefox : bool
}.

(** ** requestGeolocation *)

Definition fallbackCoords : Coordinates := mkCoordinates 40.7128%float (- 74.0060)%float.

Definition useFallbackLocation (errorMessage : string) : Run :=
  setState (fun _ =>
    {| coordinates := Some fallbackCoords;
       error := Some (errorMessage ++ " Using default location instead.")%string;
       loading := false;
       permissionGranted := Some true;
       permissionState := Some "fallback" |}).

Definition geoOptions (isFirefox : bool) : GeoOptions :=
  {| enableHighAccuracy := negb isFirefox;
     timeout := if isFirefox then 15000 else 10000;
     maximumAge := if isFirefox then 60000 else 0 |}.

(** The success callback. *)
Definition onSuccess (latitude longitude : number) : Run :=
  setState (fun _ =>
    {| coordinates := Some (mkCoordinates latitude longitude);
       error := None;
       loading := false;
       permissionGranted := Some true;
       permissionState := Some "granted" |}).

(** The error callback. *)
Definition onError (isFirefox : bool) (code : Z) (message : string) : Run :=
  if code =? 1 then
    setState (fun _ =>
      {| coordinates := None;
         error := Some (if isFirefox
                        then "Permission denied. Please allow location access in Firefox settings (Address Bar icon or Settings → Privacy & Security → Permissions → Location)."
                        else "Permission denied. Please allow location access to use this feature.");
         loading := false;
         permissionGranted := Some false;
         permissionState := Some "denied" |})
  else if code =? 2 then
    useFallbackLocation
      (if isFirefox
       then "Location permission granted, but position is currently unavailable. Please check your Operating System's location settings to ensure Firefox has access and location services are enabled. Using default location instead."
       else "Location unavailable. Using default location instead.")
  else if code =? 3 then
    useFallbackLocation "Location request timed out. Using default location instead."
  else
    useFallbackLocation
      ("Geolocation error (" ++ showZ code ++ "): " ++ message
         ++ ". Using default location instead.")%string.

(** [navigator.geolocation.getCurrentPosition(success, error, geoOptions)]
    inside the outer [try]. *)
Definition requestPosition (nav : Navigator) (isFirefox : bool) : Run :=
  andThen (emit (RequestPosition (geoOptions isFirefox)))
    (match getCurrentPosition nav (geoOptions isFirefox) with
     | PositionFound latitude longitude _ => onSuccess latitude longitude
     | PositionFailed code message => onError isFirefox code message
     | PositionThrows _ => useFallbackLocation "Unexpected error getting location."
     end).

Definition deniedByQuery (isFirefox : bool) : Run :=
  setState (fun _ =>
    {| coordinates := None;
       error := Some (if isFirefox
                      then "Permission denied. Please allow location access in your Firefox settings (Address Bar icon or Settings → Privacy & Security → Permissions → Location)."
                      else "Permission denied. Please allow location access in your browser settings.");
       loading := false;
       permissionGranted := Some false;
       permissionState := Some "denied" |}).

Definition checkPermissionAndGetLocation (nav : Navigator) (isFirefox : bool) : Run :=
  match permissions nav with
  | Some query =>
      andThen (emit QueryPermission)
        (match query with
         | QueryResolves permissionState =>
             if (permissionState =? "denied")%string
             then deniedByQuery isFirefox          (* return *)
             else requestPosition nav isFirefox
         | QueryRejects _ => requestPosition nav isFirefox
         end)
  | None => requestPosition nav isFirefox
  end.

(** The body of [requestGeolocation], as a run on the state. *)
Definition requestGeolocation_body (nav : Navigator) (isFirefox : bool) : Run :=
  if negb (geolocation nav) then
    setState (fun prev =>
      {| coordinates := coordinates prev;
         error := Some "Geolocation is not supported by your browser";
         loading := false;
         permissionGranted := Some false;
         permissionState := Some "unsupported" |})
  else
    andThen
      (setState (fun prev =>
         {| coordinates := coordinates prev;
            error := error prev;
            loading := true;
            permissionGranted := permissionGranted prev;
            permissionState := permissionState prev |}))
      (checkPermissionAndGetLocation nav isFirefox).

(** A call: the attempt counter is incremented, then the body runs. *)
Definition requestGeolocation (nav : Navigator) (h : Hook) : Hook * list Effect :=
  let (s, trace) := requestGeolocation_body nav (isFirefox h) (state h) in
  (mkHook s (attemptCount h + 1) (isFirefox h), trace).

(** The states of the resolver reached along a trace. *)
Definition statesOf (trace : list Effect) : list GeolocationState :=
  flat_map (fun e => match e with SetState s => [s] | _ => [] end) trace.

Definition isRequestPosition (e : Effect) : bool :=
  match e with RequestPosition _ => true | _ => false end.

Definition isFallback (s : GeolocationState) : bool :=
  match permissionState s with
  | Some p => (p =? "fallback")%string
  | None => false
  end.

End UseGeolocation.

(* ================================================================== *)
(** * The page component [WeatherApp]                                  *)
(* ================================================================== *)

Module WeatherApp.

Import WeatherService.

Definition fallbackWeatherData : WeatherData :=
  {| location := "NEW YORK, US";
     temperature := 18%float;
     wd_condition := "PARTLY CLOUDY";
     high := 21%float;
     low := 14%float;
     humidity := 65%float;
     wind := 12%float;
     visibility := 10%float;
     forecast :=
       [ mkForecastDay "MON" 18%float "cloudy";
         mkForecastDay "TUE" 20%float "sunny";
         mkForecastDay "WED" 17%float "rainy";
         mkForecastDay "THU" 16%float "cloudy";
         mkForecastDay "FRI" 19%float "sunny" ] |}.

(** The [useState] cells of the component that the handlers write. *)
Record AppState : Type := mkAppState {
  searchQuery : string;
  weatherData : option WeatherData;
  loading : bool;
  error : option string
}.

Definition setSearchQuery (q : string) (st : AppState) : AppState :=
  mkAppState q (weatherData st) (loading st) (error st).
Definition setWeatherData (w : option WeatherData) (st : AppState) : AppState :=
  mkAppState (searchQuery st) w (loading st) (error st).
Definition setLoading (b : bool) (st : AppState) : AppState :=
  mkAppState (searchQuery st) (weatherData st) b (error st).
Definition setError (e : option string) (st : AppState) : AppState :=
  mkAppState (searchQuery st) (weatherData st) (loading st) e.

(** [{...data, location: locationName}]. *)
Definition withLocation (data : WeatherData) (locationName : string) : WeatherData :=
  {| location := locationName;
     temperature := temperature data;
     wd_condition := wd_condition data;
     high := high data;
     low := low data;
     humidity := humidity data;
     wind := wind data;
     visibility := visibility data;
     forecast := forecast data |}.

Definition isNull {A} (o : option A) : bool :=
  match o with None => true | Some _ => false end.

Local Open Scope async_scope.

(** The [try] block of [fetchWeatherByCoordinates], after the two
    leading setters. *)
Definition fetchWeatherByCoordinates_try (net : Network) (c : Clock)
    (lat lon : number) : Async WeatherData :=
  data <- fetchWeatherData net c lat lon ;;
  locationName <- getCityFromCoords net lat lon ;;
  ret (withLocation data locationName).

(** [st] is the state of the render the handler was created in: it is
    both what [weatherData] reads in the [catch] block and what the
    setters update. *)
Definition fetchWeatherByCoordinates (net : Network) (c : Clock)
    (lat lon : number) (st : AppState) : AppState * list Request :=
  let st1 := setError None (setLoading true st) in
  let attempt := fetchWeatherByCoordinates_try net c lat lon in
  let st2 :=
    match outcome attempt with
    | inr data => setWeatherData (Some data) st1
    | inl err =>
        let st' :=
          if isNull (weatherData st)
          then setError
                 (Some ("Failed to fetch weather data: "
                        ++ (if nonEmpty (err_message err)
                            then err_message err
                            else "Please try again."))%string) st1
          else st1 in
        if isNull (weatherData st)
        then setWeatherData (Some fallbackWeatherData) st'
        else st'
    end in
  (setLoading false st2, requests attempt).

Definition handleSearch (net : Network) (c : Clock) (st : AppState)
    : AppState * list Request :=
  if negb (nonEmpty (trim (searchQuery st))) then (st, [])
  else
    let st1 := setError None (setLoading true st) in
    let attempt := fetchWeatherByCity net c (searchQuery st) in
    let st2 :=
      match outcome attempt with
      | inr data => setSearchQuery EmptyString (setWeatherData (Some data) st1)
      | inl _ => setError (Some "Location not found. Please try another search term.") st1
      end in
    (setLoading false st2, requests attempt).

End WeatherApp.

(* ================================================================== *)
(** * The specification's wording, as definitions                      *)
(* ================================================================== *)

Module Spec.

Import WeatherService.

(** The calendar day (UTC) a forecast entry belongs to. *)
Definition dayOf (item : ForecastItem) : Z := utcDate (itemTime item).

(** The distinct values of a list, in order of first appearance. *)
Fixpoint firstSeen (l : list Z) : list Z :=
  match l with
  | [] => []
  | d :: rest => d :: filter (fun x => negb (x =? d)) (firstSeen rest)
  end.

Definition distinctDays (l : list ForecastItem) : list Z :=
  firstSeen (map dayOf l).

Definition itemsOfDay (d : Z) (l : list ForecastItem) : list ForecastItem :=
  filter (fun item => dayOf item =? d) l.

(** "Groups the sub-daily entries by calendar day": one group per
    distinct day, holding that day's entries in upstream order. *)
Definition groupsByCalendarDay (l : list ForecastItem) : ByDay :=
  map (fun d => (d, itemsOfDay d l)) (distinctDays l).


(** The local hour of the day is 11, 12 or 13: the local time of day
    lies in [11:00, 14:00). *)
Definition hourIs11To13 (c : Clock) (item : ForecastItem) : bool :=
  (11 * msPerHour <=? timeOfDay c (itemTime item))
  && (timeOfDay c (itemTime item) <? 14 * msPerHour).

(** "The entry for which [w] holds if such an entry exists, else the
    first entry of that day" (the earliest one when several qualify). *)
Definition chosenEntry (w : ForecastItem -> bool) (items : list ForecastItem)
    : option ForecastItem :=
  match filter w items with
  | item :: _ => Some item
  | [] => hd_error items
  end.


(** An entry made up for a missing day. *)
Definition synthesized (currentData : CurrentData) (fd : ForecastDay) : Prop :=
  temp fd = Math_round (main_temp (cd_main currentData))
  /\ condition fd = "cloudy".

(** Payloads the formatter does not throw on: every entry has a valid
    time stamp and a weather tag, and so has the current record. *)
Definition wellFormed (currentData : CurrentData) (forecastData : ForecastData) : Prop :=
  cd_weather currentData <> []
  /\ Forall (fun item => validTime (itemTime item) = true /\ fi_weather item <> [])
            (fd_list forecastData).

(** "Visibility divided by 1000 and rounded, 10000 m assumed when the
    upstream value is absent". *)
Definition visibilityKmAsStated (v : option number) : number :=
  Math_round (match v with Some x => x | None => 10000%float end / 1000)%float.

(** The same with the default also standing in for a value that is
    zero or not a number. *)
Definition visibilityKmFalsy (v : option number) : number :=
  Math_round
    (match v with
     | Some x => if PrimFloat.eqb x 0%float || isNaN x then 10000%float else x
     | None => 10000%float
     end / 1000)%float.

(** "The fallback-coordinate label if the input coordinates match the
    known fallback constant within epsilon, else a generic placeholder". *)
Definition labelOnFailure (lat lon : number) : string :=
  if nearNewYork lat lon then "NEW YORK, US" else "Current Location".

End Spec.

(* ================================================================== *)
(** * Reachable states of the hook                                     *)
(* ================================================================== *)

Module Reach.

Import UseGeolocation.

(** The hook starts in [initialState]; each call of
    [requestGeolocation], in whatever browser, is a step. *)
Inductive reachable : Hook -> Prop :=
| reach_mount : forall firefox, reachable (mkHook initialState 0 firefox)
| reach_request : forall nav h,
    reachable h -> reachable (fst (requestGeolocation nav h)).

(** A state marked [fallback] reports the permission as granted. *)
Definition fallbackIsGranted (s : GeolocationState) : Prop :=
  isFallback s = true -> permissionGranted s = Some true.

End Reach.

(* ================================================================== *)
(** * Sample inputs                                                    *)
(* ================================================================== *)

Module Samples.

Import WeatherService UseGeolocation WeatherApp.

(** A host on UTC, and one in Kabul (UTC+04:30); the wall clock reads
    Tuesday 14 November 2023, 22:13:20 UTC. *)
Definition utcClock : Clock := mkClock (fun _ => 0) 1700000000000.

Definition currentWith (v : option number) : CurrentData :=
  mkCurrentData [mkWeather "Clouds"]
    (mkMain 17.6%float 15.2%float 20.1%float 60%float) 3.4%float v.

(** 14 November 2023, 00:00 UTC, in epoch seconds. *)
Definition nov14 : Z := 1699920000.

Definition entry (seconds : Z) (t : number) (w : string) : ForecastItem :=
  mkForecastItem seconds t [mkWeather w].

(** Two days of a 3-hourly feed: 00:00 to 12:00 UTC on the 14th, then
    00:00 and 03:00 UTC on the 15th. *)
Definition twoDays : ForecastData :=
  mkForecastData
    [ entry nov14 4.2%float "Mist";
      entry (nov14 + 10800) 4.9%float "Clouds";
      entry (nov14 + 21600) 5.4%float "Rain";
      entry (nov14 + 32400) 6.5%float "Snow";
      entry (nov14 + 43200) 7.1%float "Clear";
      entry (nov14 + 86400) 3.3%float "Clouds";
      entry (nov14 + 97200) 2.8%float "Clouds" ].

Definition noDays : ForecastData := mkForecastData [].

(** Networks: one where every call is rejected, one where only the
    reverse-geocoding answer is chosen, and one in working order. *)
Definition failedToFetch : JsError := TypeError "Failed to fetch".

Definition offline : Network :=
  {| weatherApi := fun _ _ => Rejected failedToFetch;
     forecastApi := fun _ _ => Rejected failedToFetch;
     directApi := fun _ => Rejected failedToFetch;
     reverseApi := fun _ _ => Rejected failedToFetch |}.

Definition reverseAnswers (answer : Fetched (option (list Place))) : Network :=
  {| weatherApi := fun _ _ => Rejected failedToFetch;
     forecastApi := fun _ _ => Rejected failedToFetch;
     directApi := fun _ => Rejected failedToFetch;
     reverseApi := fun _ _ => answer |}.

Definition emptyResult : Fetched (option (list Place)) :=
  Responded (mkResponse true 200 (inr (Some []))).

Definition serverError : Fetched (option (list Place)) :=
  Responded (mkResponse false 500 (inr None)).

Definition online : Network :=
  {| weatherApi := fun _ _ =>
       Responded (mkResponse true 200 (inr (currentWith (Some 8000%float))));
     forecastApi := fun _ _ => Responded (mkResponse true 200 (inr twoDays));
     directApi := fun _ =>
       Responded (mkResponse true 200
                    (inr (Some [mkGeoMatch 48.8589%float 2.32%float])));
     reverseApi := fun _ _ =>
       Responded (mkResponse true 200 (inr (Some [mkPlace (Some "Paris") "FR"]))) |}.

(** The same network when the geocoder knows no such city. *)
Definition cityUnknown : Network :=
  {| weatherApi := weatherApi online;
     forecastApi := forecastApi online;
     directApi := fun _ => Responded (mkResponse true 200 (inr (Some [])));
     reverseApi := reverseApi online |}.

Definition newYorkLat : number := 40.7128%float.
Definition newYorkLon : number := (- 74.0060)%float.

(** Page states: nothing shown yet, and a record on display. *)
Definition blankPage (query : string) : AppState := mkAppState query None false None.
Definition showing (query : string) : AppState :=
  mkAppState query (Some fallbackWeatherData) false None.

(** Browsers. *)
Definition timesOut : Navigator :=
  {| geolocation := true;
     permissions := Some (QueryResolves "prompt");
     getCurrentPosition := fun _ => PositionFailed 3 "Timeout expired" |}.

Definition alreadyDenied : Navigator :=
  {| geolocation := true;
     permissions := Some (QueryResolves "denied");
     getCurrentPosition := fun _ => PositionFound 52.52%float 13.405%float 20%float |}.

Definition mounted : Hook := mkHook initialState 0 false.

End Samples.

(* ================================================================== *)
(** * More JavaScript primitives                                       *)
(* ================================================================== *)

Module JsText.

(** [date.getMinutes()]. *)
Definition getMinutes (c : Clock) (t : Z) : Z := (localTime c t / 60000) mod 60.

(** [s.padStart(2, '0')]. *)
Definition padStart2 (s : string) : string :=
  match String.length s with
  | O => "00"
  | S O => String "0" s
  | _ => s
  end.

(** [s.split(sep)] for a separator of one character. *)
Fixpoint split (sep : ascii) (s : string) : list string :=
  match s with
  | EmptyString => [EmptyString]
  | String ch rest =>
      if Ascii.eqb ch sep then EmptyString :: split sep rest
      else match split sep rest with
           | piece :: pieces => String ch piece :: pieces
           | [] => [String ch EmptyString]
           end
  end.

(** Strings all of whose bytes are ASCII, on which the string model and
    JavaScript agree. *)
Fixpoint isAscii (s : string) : bool :=
  match s with
  | EmptyString => true
  | String ch rest => (nat_of_ascii ch <? 128)%nat && isAscii rest
  end.

End JsText.

(** The icons of lucide-react that the components return. *)
Module Lucide.

Inductive Icon : Type := Sun | CloudRain | CloudSnow | CloudLightning | CloudFog | Cloud.

End Lucide.

(* ================================================================== *)
(** * The rest of the page: effects, the decline handler, the clock    *)
(* ================================================================== *)

Module WeatherAppEffects.

Import WeatherService WeatherApp JsText Lucide.

(** The effect on [permissionGranted]: the value [showPermissionModal]
    has once it has run. *)
Definition permissionModalEffect (permissionGranted : option bool)
    (showPermissionModal : bool) : bool :=
  if isNull permissionGranted then true else showPermissionModal.

(** The effect on [coordinates]. *)
Definition coordinatesEffect (net : Network) (c : Clock)
    (geo : UseGeolocation.GeolocationState) (st : AppState) : AppState * list Request :=
  match UseGeolocation.coordinates geo with
  | Some coordinates =>
      fetchWeatherByCoordinates net c
        (UseGeolocation.lat coordinates) (UseGeolocation.lon coordinates) st
  | None => (st, [])
  end.

(** The effect on [geoError], [permissionGranted] and [coordinates]. *)
Definition geoErrorEffect (geo : UseGeolocation.GeolocationState) (st : AppState)
    : AppState :=
  match UseGeolocation.error geo with
  | Some geoError =>
      if nonEmpty geoError then
        if match UseGeolocation.permissionGranted geo with
           | Some false => true
           | _ => false
           end
           || isNull (UseGeolocation.coordinates geo)
        then setError (Some geoError) st
        else setError None st
      else setError None st
  | None => setError None st
  end.

(** [handleDenyLocation], on the page state and [showPermissionModal]. *)
Definition handleDenyLocation (st : AppState) (showPermissionModal : bool)
    : AppState * bool :=
  (if isNull (weatherData st) then setWeatherData (Some fallbackWeatherData) st else st,
   false).

(** The text [updateTime] stores in [currentTime]. *)
Definition updateTime (c : Clock) : string :=
  (padStart2 (showZ (getHours c (now c))) ++ ":"
   ++ padStart2 (showZ (getMinutes c (now c))))%string.

(** [getWeatherIcon] of the page: a [switch] on the lower-cased label. *)
Definition getWeatherIcon (condition : string) : Icon :=
  let lowered := toLowerCase condition in
  if ((lowered =? "clear") || (lowered =? "sunny"))%string then Sun
  else if ((lowered =? "rain") || (lowered =? "rainy") || (lowered =? "drizzle"))%string
       then CloudRain
  else Cloud.

End WeatherAppEffects.

(* ================================================================== *)
(** * The forecast card [WeatherForecast]                              *)
(* ================================================================== *)

Module WeatherForecast.

Import Lucide.

(** [getWeatherIcon] of the card: substrings, the first match wins. *)
Definition getWeatherIcon (condition : string) : Icon :=
  let conditionLower := toLowerCase condition in
  if includes "clear" conditionLower || includes "sunny" conditionLower then Sun
  else if includes "rain" conditionLower || includes "drizzle" conditionLower then CloudRain
  else if includes "snow" conditionLower then CloudSnow
  else if includes "thunder" conditionLower || includes "lightning" conditionLower
       then CloudLightning
  else if includes "fog" conditionLower || includes "mist" conditionLower
          || includes "haze" conditionLower
       then CloudFog
  else Cloud.

End WeatherForecast.

(* ================================================================== *)
(** * Further sample inputs                                            *)
(* ================================================================== *)

Module MoreSamples.

Import WeatherService UseGeolocation WeatherApp.

(** The weather API answers 503 for current conditions. *)
Definition weatherDown : Network :=
  {| weatherApi := fun _ _ => Responded (mkResponse false 503 (inl Samples.failedToFetch));
     forecastApi := forecastApi Samples.online;
     directApi := directApi Samples.online;
     reverseApi := reverseApi Samples.online |}.

(** The forecast endpoint answers 429 and the current payload is not JSON. *)
Definition forecastDown : Network :=
  {| weatherApi := fun _ _ =>
       Responded (mkResponse true 200 (inl (mkError "SyntaxError" "Unexpected token")));
     forecastApi := fun _ _ => Responded (mkResponse false 429 (inl Samples.failedToFetch));
     directApi := directApi Samples.online;
     reverseApi := reverseApi Samples.online |}.

(** Everything works but reverse geocoding. *)
Definition reverseDown : Network :=
  {| weatherApi := weatherApi Samples.online;
     forecastApi := forecastApi Samples.online;
     directApi := directApi Samples.online;
     reverseApi := fun _ _ => Rejected Samples.failedToFetch |}.

(** A feed with an entry whose time stamp is out of range. *)
Definition brokenFeed : ForecastData :=
  mkForecastData
    [ Samples.entry Samples.nov14 4.2%float "Mist";
      Samples.entry 9000000000000000 5.0%float "Clear" ].

(** Six days of one entry each at 00:00 UTC, and two later entries. *)
Definition sixDays : list ForecastItem :=
  [ Samples.entry Samples.nov14 1.5%float "Mist";
    Samples.entry (Samples.nov14 + 86400) 2.5%float "Rain";
    Samples.entry (Samples.nov14 + 172800) 3.5%float "Snow";
    Samples.entry (Samples.nov14 + 259200) 4.5%float "Clear";
    Samples.entry (Samples.nov14 + 345600) 5.5%float "Clouds";
    Samples.entry (Samples.nov14 + 432000) 6.5%float "Fog" ].

Definition laterEntries : list ForecastItem :=
  [ mkForecastItem (Samples.nov14 + 475200) 7.5%float [];
    Samples.entry (Samples.nov14 + 518400) 8.5%float "Haze" ].

(** Browsers. *)
Definition noGeolocation : Navigator :=
  {| geolocation := false;
     permissions := None;
     getCurrentPosition := fun _ => PositionThrows Samples.failedToFetch |}.

Definition berlin : Navigator :=
  {| geolocation := true;
     permissions := Some (QueryRejects Samples.failedToFetch);
     getCurrentPosition := fun _ => PositionFound 52.52%float 13.405%float 20%float |}.

Definition refuses : Navigator :=
  {| geolocation := true;
     permissions := None;
     getCurrentPosition := fun _ => PositionFailed 1 "User denied Geolocation" |}.

End MoreSamples.


(* ================================================================== *)
(** * Properties of the normaliser                                     *)
(* ================================================================== *)

Import WeatherService.

(** What a successful run of the formatter went through. *)
Lemma format_inversion (c : Clock) (cur : CurrentData) (fc : ForecastData) (r : WeatherData) :
  formatWeatherDataFromAPI25 c cur fc = inr r ->
  exists groups picked,
    groupByDay (fd_list fc) = inr groups
    /\ pickForecasts c groups = inr picked
    /\ cd_weather cur <> []
    /\ forecast r = fillMissing 5 c (main_temp (cd_main cur)) picked
    /\ visibility r = Math_round (orDefault (cd_visibility cur) 10000 / 1000)%float
    /\ temperature r = Math_round (main_temp (cd_main cur)).
Proof.
  unfold formatWeatherDataFromAPI25, rbind.
  destruct (groupByDay (fd_list fc)) as [e | groups] eqn:Hg; [discriminate |].
  destruct (pickForecasts c groups) as [e | picked] eqn:Hp; [discriminate |].
  destruct (cd_weather cur) as [| w ws] eqn:Hw; [discriminate |].
  intros H. injection H as <-.
  exists groups, picked.
  repeat split; try assumption; try reflexivity.
  discriminate.
Qed.

(** The formatter's visibility, whatever the input. *)
Lemma visibility_orDefault (v : option number) :
  Math_round (orDefault v 10000 / 1000)%float = Spec.visibilityKmFalsy v.
Proof.
  unfold Spec.visibilityKmFalsy, orDefault, truthy.
  destruct v as [x |]; [| reflexivity].
  destruct (PrimFloat.eqb x 0 || isNaN x); reflexivity.
Qed.

(** C6, as amended. In the record produced by formatWeatherDataFromAPI25,
    [visibility] is the upstream value in metres divided by 1000 and
    rounded by [Math.round], where 10000 m stands in for a value that is
    absent, zero or NaN; an absent value gives 10 and 8000 gives 8. *)
Theorem C6_visibility_conversion (c : Clock) (cur : CurrentData) (fc : ForecastData)
    (r : WeatherData) :
  formatWeatherDataFromAPI25 c cur fc = inr r ->
  visibility r = Spec.visibilityKmFalsy (cd_visibility cur)
  /\ (cd_visibility cur = None -> visibility r = 10%float)
  /\ (cd_visibility cur = Some 8000%float -> visibility r = 8%float).
Proof.
  intros H.
  destruct (format_inversion _ _ _ _ H) as (groups & picked & _ & _ & _ & _ & Hv & _).
  rewrite visibility_orDefault in Hv.
  split; [exact Hv |].
  split; intros E; rewrite Hv, E; reflexivity.
Qed.

(** C6, as stated, fails when the upstream visibility is 0 m: the claim
    gives 0 km, the formatter 10 km. *)
Lemma C6_counterexample_zero_visibility :
  exists r,
    formatWeatherDataFromAPI25 Samples.utcClock
      (Samples.currentWith (Some 0%float)) Samples.noDays = inr r
    /\ visibility r <> Spec.visibilityKmAsStated (Some 0%float).
Proof.
  eexists. split; [vm_compute; reflexivity |].
  vm_compute. discriminate.
Qed.

Lemma C6_visibility_conversion_witness :
  exists r,
    formatWeatherDataFromAPI25 Samples.utcClock
      (Samples.currentWith (Some 8000%float)) Samples.twoDays = inr r
    /\ visibility r = 8%float.
Proof.
  eexists. split; [vm_compute; reflexivity |].
  apply (C6_visibility_conversion Samples.utcClock
           (Samples.currentWith (Some 8000%float)) Samples.twoDays).
  - vm_compute. reflexivity.
  - reflexivity.
Defined.

(** C10. When the upstream visibility is exactly 0 m (of either sign),
    the record's [visibility] is 10, as it is when the value is absent:
    [||] takes the default for every falsy value before the division. *)
Theorem C10_zero_visibility_is_ten (c : Clock) (cur : CurrentData) (fc : ForecastData)
    (r : WeatherData) :
  formatWeatherDataFromAPI25 c cur fc = inr r ->
  cd_visibility cur = Some 0%float \/ cd_visibility cur = Some (-0)%float ->
  visibility r = 10%float
  /\ visibility r <> 0%float
  /\ orDefault (cd_visibility cur) 10000%float = orDefault None 10000%float.
Proof.
  intros H Hz.
  destruct (format_inversion _ _ _ _ H) as (groups & picked & _ & _ & _ & _ & Hv & _).
  rewrite Hv.
  destruct Hz as [-> | ->]; vm_compute; repeat split; discriminate.
Qed.

Lemma C10_zero_visibility_is_ten_witness :
  exists r,
    formatWeatherDataFromAPI25 Samples.utcClock
      (Samples.currentWith (Some 0%float)) Samples.twoDays = inr r
    /\ visibility r = 10%float.
Proof.
  eexists. split; [vm_compute; reflexivity |].
  apply (C10_zero_visibility_is_ten Samples.utcClock
           (Samples.currentWith (Some 0%float)) Samples.twoDays).
  - vm_compute. reflexivity.
  - left. reflexivity.
Defined.

(** ** Grouping by calendar day *)

Import Spec.

Lemma fold_groupStep_inl (e : JsError) (l : list ForecastItem) :
  fold_left groupStep l (inl e) = inl e.
Proof. induction l as [| x l IH]; simpl; auto. Qed.

Lemma groupByDay_snoc (l : list ForecastItem) (x : ForecastItem) :
  groupByDay (l ++ [x]) = groupStep (groupByDay l) x.
Proof. unfold groupByDay. rewrite fold_left_app. reflexivity. Qed.

Lemma firstSeen_In (d : Z) (l : list Z) : In d (firstSeen l) <-> In d l.
Proof.
  induction l as [| a l IH]; simpl; [tauto |].
  rewrite filter_In, IH. split.
  - intros [H | [H _]]; auto.
  - intros [H | H]; [auto |].
    destruct (Z.eqb_spec d a) as [-> | Hne]; [auto |].
    right. split; [exact H | reflexivity].
Qed.

Lemma firstSeen_NoDup (l : list Z) : NoDup (firstSeen l).
Proof.
  induction l as [| a l IH]; simpl; constructor.
  - intros H. apply filter_In in H. destruct H as [_ H].
    rewrite Z.eqb_refl in H. discriminate.
  - apply NoDup_filter, IH.
Qed.

Lemma firstSeen_snoc (l : list Z) (d : Z) :
  firstSeen (l ++ [d]) =
  if existsb (Z.eqb d) l then firstSeen l else firstSeen l ++ [d].
Proof.
  induction l as [| a l IH]; simpl; [reflexivity |].
  rewrite IH.
  destruct (Z.eqb_spec d a) as [-> | Hne]; simpl.
  - destruct (existsb (Z.eqb a) l); [reflexivity |].
    rewrite filter_app. simpl. rewrite Z.eqb_refl. simpl.
    rewrite app_nil_r. reflexivity.
  - destruct (existsb (Z.eqb d) l); [reflexivity |].
    rewrite filter_app. simpl.
    apply Z.eqb_neq in Hne. rewrite Hne. reflexivity.
Qed.

Lemma existsb_eqb_In (d : Z) (l : list Z) : existsb (Z.eqb d) l = true <-> In d l.
Proof.
  rewrite existsb_exists. split.
  - intros (x & Hx & E). apply Z.eqb_eq in E. subst. exact Hx.
  - intros H. exists d. split; [exact H | apply Z.eqb_refl].
Qed.

(** [pushItem] on a table whose values are a function of the key. *)
Lemma pushItem_present (f : Z -> list ForecastItem) (d : Z) (x : ForecastItem)
    (keys : list Z) :
  NoDup keys -> In d keys ->
  pushItem d x (map (fun k => (k, f k)) keys) =
  map (fun k => (k, if k =? d then f k ++ [x] else f k)) keys.
Proof.
  induction keys as [| k keys IH]; intros Hnd Hin; [destruct Hin |].
  inversion Hnd as [| ? ? Hk Hnd']; subst. simpl.
  destruct (Z.eqb_spec k d) as [-> | Hne].
  - f_equal. apply map_ext_in. intros k' Hk'.
    destruct (Z.eqb_spec k' d) as [-> | _]; [contradiction | reflexivity].
  - f_equal. apply IH; [exact Hnd' |].
    destruct Hin as [E | Hin]; [contradiction | exact Hin].
Qed.

Lemma pushItem_absent (f : Z -> list ForecastItem) (d : Z) (x : ForecastItem)
    (keys : list Z) :
  ~ In d keys ->
  pushItem d x (map (fun k => (k, f k)) keys) =
  map (fun k => (k, f k)) keys ++ [(d, [x])].
Proof.
  induction keys as [| k keys IH]; intros Hin; simpl; [reflexivity |].
  destruct (Z.eqb_spec k d) as [-> | Hne].
  - exfalso. apply Hin. left. reflexivity.
  - f_equal. apply IH. intros H. apply Hin. right. exact H.
Qed.

Lemma itemsOfDay_snoc (k : Z) (l : list ForecastItem) (x : ForecastItem) :
  itemsOfDay k (l ++ [x]) = itemsOfDay k l ++ (if dayOf x =? k then [x] else []).
Proof. unfold itemsOfDay. rewrite filter_app. reflexivity. Qed.

Lemma itemsOfDay_absent (d : Z) (l : list ForecastItem) :
  ~ In d (map dayOf l) -> itemsOfDay d l = [].
Proof.
  induction l as [| a l IH]; intros H; simpl; [reflexivity |].
  destruct (Z.eqb_spec (dayOf a) d) as [E | _].
  - exfalso. apply H. left. exact E.
  - apply IH. intros H'. apply H. right. exact H'.
Qed.

(** Appending an entry to the feed is one [pushItem] on the groups. *)
Lemma groups_snoc (l : list ForecastItem) (x : ForecastItem) :
  groupsByCalendarDay (l ++ [x]) = pushItem (dayOf x) x (groupsByCalendarDay l).
Proof.
  unfold groupsByCalendarDay, distinctDays.
  rewrite map_app. simpl. rewrite firstSeen_snoc.
  destruct (existsb (Z.eqb (dayOf x)) (map dayOf l)) eqn:Hex.
  - apply existsb_eqb_In in Hex.
    rewrite (pushItem_present (fun d => itemsOfDay d l));
      [| apply firstSeen_NoDup | apply firstSeen_In; exact Hex].
    apply map_ext. intros k. rewrite itemsOfDay_snoc, (Z.eqb_sym k).
    destruct (dayOf x =? k); [reflexivity | rewrite app_nil_r; reflexivity].
  - assert (Hnot : ~ In (dayOf x) (map dayOf l)).
    { intros H. apply existsb_eqb_In in H. congruence. }
    rewrite (pushItem_absent (fun d => itemsOfDay d l));
      [| rewrite firstSeen_In; exact Hnot].
    rewrite map_app. simpl. f_equal.
    + apply map_ext_in. intros k Hk. rewrite itemsOfDay_snoc.
      destruct (Z.eqb_spec (dayOf x) k) as [E | _];
        [| rewrite app_nil_r; reflexivity].
      exfalso. apply Hnot. rewrite E. apply firstSeen_In. exact Hk.
    + rewrite itemsOfDay_snoc, Z.eqb_refl, (itemsOfDay_absent _ _ Hnot).
      reflexivity.
Qed.

(** Whenever the first loop completes, its table is the grouping by
    calendar day, and every entry had a valid time stamp. *)
Lemma groupByDay_inr (l : list ForecastItem) (m : ByDay) :
  groupByDay l = inr m ->
  m = groupsByCalendarDay l /\ Forall (fun item => validTime (itemTime item) = true) l.
Proof.
  revert m. induction l as [| x l IH] using rev_ind; intros m H.
  - unfold groupByDay in H. simpl in H. injection H as <-. split; [reflexivity | constructor].
  - rewrite groupByDay_snoc in H. unfold groupStep, rbind in H.
    destruct (groupByDay l) as [e | m'] eqn:Hg; [discriminate |].
    destruct (validTime (itemTime x)) eqn:Hv; [| discriminate].
    injection H as <-.
    destruct (IH m' eq_refl) as [-> Hall].
    split.
    + rewrite groups_snoc. reflexivity.
    + apply Forall_app. split; [exact Hall | constructor; [exact Hv | constructor]].
Qed.

(** Conversely the first loop completes on valid time stamps. *)
Lemma groupByDay_total (l : list ForecastItem) :
  Forall (fun item => validTime (itemTime item) = true) l ->
  groupByDay l = inr (groupsByCalendarDay l).
Proof.
  induction l as [| x l IH] using rev_ind; intros H; [reflexivity |].
  apply Forall_app in H. destruct H as [Hl Hx].
  inversion Hx as [| ? ? Hv _]; subst.
  rewrite groupByDay_snoc, (IH Hl), groups_snoc.
  unfold groupStep, rbind. rewrite Hv. reflexivity.
Qed.

(** ** Choosing the entry of a day *)

(** The test on [getHours] is a test on the local time of day. *)
Lemma aroundNoon_hours (c : Clock) (item : ForecastItem) :
  aroundNoon c item = hourIs11To13 c item.
Proof.
  unfold aroundNoon, hourIs11To13, getHours, timeOfDay.
  set (L := localTime c (itemTime item)).
  assert (E : L mod msPerDay = L mod msPerHour + msPerHour * ((L / msPerHour) mod 24)).
  { change msPerDay with (msPerHour * 24). apply Z.rem_mul_r; unfold msPerHour; lia. }
  pose proof (Z.mod_pos_bound L msPerHour eq_refl) as Hr.
  rewrite E. unfold msPerHour in *.
  set (h := (L / 3600000) mod 24) in *.
  set (r := L mod 3600000) in *.
  apply eq_true_iff_eq.
  rewrite !andb_true_iff, !Z.leb_le, Z.ltb_lt. lia.
Qed.

Lemma find_hd_filter {A} (p : A -> bool) (l : list A) :
  find p l = hd_error (filter p l).
Proof.
  induction l as [| a l IH]; simpl; [reflexivity |].
  destruct (p a); [reflexivity | exact IH].
Qed.

Lemma noonForecast_chosen (c : Clock) (items : list ForecastItem) :
  noonForecast c items = chosenEntry (hourIs11To13 c) items.
Proof.
  unfold noonForecast, chosenEntry.
  rewrite find_hd_filter.
  rewrite (filter_ext _ _ (aroundNoon_hours c)).
  destruct (filter (hourIs11To13 c) items); reflexivity.
Qed.

Lemma noonForecast_In (c : Clock) (items : list ForecastItem) (item : ForecastItem) :
  noonForecast c items = Some item -> In item items.
Proof.
  unfold noonForecast.
  destruct (find (aroundNoon c) items) as [x |] eqn:Hf.
  - intros H. injection H as <-. apply (find_some _ _ Hf).
  - destruct items as [| a items]; simpl; [discriminate |].
    intros H. injection H as <-. left. reflexivity.
Qed.

Lemma noonForecast_some (c : Clock) (items : list ForecastItem) :
  items <> [] -> exists item, noonForecast c items = Some item.
Proof.
  unfold noonForecast. intros H.
  destruct (find (aroundNoon c) items) as [x |]; [eauto |].
  destruct items as [| a items]; [contradiction | simpl; eauto].
Qed.

Lemma lookup_table (f : Z -> list ForecastItem) (d : Z) (keys : list Z) :
  In d keys -> lookup d (map (fun k => (k, f k)) keys) = Some (f d).
Proof.
  induction keys as [| k keys IH]; intros H; [destruct H |]. simpl.
  destruct (Z.eqb_spec k d) as [-> | Hne]; [reflexivity |].
  apply IH. destruct H as [E | H]; [contradiction | exact H].
Qed.

Lemma groups_keys (l : list ForecastItem) :
  map fst (groupsByCalendarDay l) = distinctDays l.
Proof.
  unfold groupsByCalendarDay. rewrite map_map. simpl. apply map_id.
Qed.

Lemma fold_pickStep_inl (c : Clock) (m : ByDay) (e : JsError) (ds : list Z) :
  fold_left (pickStep c m) ds (inl e) = inl e.
Proof. induction ds as [| d ds IH]; simpl; auto. Qed.

(** What the second loop did when it completes. *)
Lemma pick_inversion (c : Clock) (m : ByDay) (ds : list Z) :
  forall acc res,
    fold_left (pickStep c m) ds (inr acc) = inr res ->
    exists chosen entries,
      res = acc ++ entries
      /\ Forall2 (fun d item => exists items,
                    lookup d m = Some items /\ noonForecast c items = Some item)
                 ds chosen
      /\ Forall2 (fun item fd => toForecastDay c item = inr fd) chosen entries.
Proof.
  induction ds as [| d ds IH]; intros acc res H; simpl in H.
  - injection H as <-. exists [], []. rewrite app_nil_r.
    repeat split; constructor.
  - unfold rbind in H.
    destruct (lookup d m) as [items |] eqn:Hl;
      [| rewrite fold_pickStep_inl in H; discriminate].
    destruct (noonForecast c items) as [item |] eqn:Hn;
      [| rewrite fold_pickStep_inl in H; discriminate].
    destruct (toForecastDay c item) as [e | fd] eqn:Ht;
      [rewrite fold_pickStep_inl in H; discriminate |].
    apply IH in H. destruct H as (chosen & entries & -> & H1 & H2).
    exists (item :: chosen), (fd :: entries).
    rewrite <- app_assoc. repeat split; constructor; eauto.
Qed.

(** The second loop completes when every day it visits is in the table
    with entries that all carry a weather tag. *)
Lemma pick_total (c : Clock) (m : ByDay) (ds : list Z) :
  Forall (fun d => exists items,
            lookup d m = Some items /\ items <> []
            /\ Forall (fun item => fi_weather item <> []) items) ds ->
  forall acc, exists res, fold_left (pickStep c m) ds (inr acc) = inr res.
Proof.
  induction ds as [| d ds IH]; intros H acc; simpl; [eauto |].
  inversion H as [| ? ? (items & Hl & Hne & Hw) Hds]; subst.
  unfold rbind. rewrite Hl.
  destruct (noonForecast_some c items Hne) as (item & Hn). rewrite Hn.
  pose proof (noonForecast_In _ _ _ Hn) as Hin.
  rewrite Forall_forall in Hw. specialize (Hw item Hin).
  unfold toForecastDay.
  destruct (fi_weather item) as [| w ws]; [contradiction |].
  apply IH, Hds.
Qed.

(** ** Filling the missing days *)

Lemma fillMissing_pad (fuel : nat) (c : Clock) (t : number) :
  forall processed,
  exists pad,
    fillMissing fuel c t processed = processed ++ pad
    /\ Forall (fun fd => temp fd = Math_round t /\ condition fd = "cloudy") pad
    /\ length pad = Nat.min fuel (5 - length processed).
Proof.
  induction fuel as [| fuel IH]; intros processed; cbn [fillMissing].
  - exists []. rewrite app_nil_r. repeat split. constructor.
  - destruct (Nat.ltb_spec (length processed) 5) as [Hlt | Hge].
    + destruct (IH (processed ++ [fillerDay c t (length processed)]))
        as (pad & E & Hall & Hlen).
      exists (fillerDay c t (length processed) :: pad).
      rewrite E, <- app_assoc. split; [reflexivity |]. split.
      * constructor; [split; reflexivity | exact Hall].
      * cbn [length]. rewrite Hlen, length_app. cbn [length]. lia.
    + exists []. rewrite app_nil_r. repeat split; [constructor | cbn [length]; lia].
Qed.

(** Five rounds reach the exit of the [while] loop: more fuel changes
    nothing, and the loop condition is false on the result. *)
Lemma fillMissing_exit (c : Clock) (t : number) (processed : list ForecastDay) (k : nat) :
  fillMissing (5 + k) c t processed = fillMissing 5 c t processed
  /\ (length (fillMissing 5 c t processed) <? 5)%nat = false.
Proof.
  split.
  - assert (G : forall fuel p, (5 - length p <= fuel)%nat ->
                fillMissing (fuel + k) c t p = fillMissing fuel c t p).
    { induction fuel as [| fuel IH]; intros p Hp.
      - cbn [Nat.add]. destruct k as [| k']; cbn [fillMissing]; [reflexivity |].
        destruct (Nat.ltb_spec (length p) 5); [lia | reflexivity].
      - cbn [Nat.add fillMissing].
        destruct (Nat.ltb_spec (length p) 5); [| reflexivity].
        apply IH. rewrite length_app. cbn [length]. lia. }
    apply G. lia.
  - destruct (fillMissing_pad 5 c t processed) as (pad & E & _ & Hlen).
    rewrite E, length_app, Hlen. apply Nat.ltb_ge. lia.
Qed.

(** ** The forecast of the canonical record *)

Lemma firstn_incl {A} (n : nat) (l : list A) (x : A) : In x (firstn n l) -> In x l.
Proof.
  intros H. rewrite <- (firstn_skipn n l). apply in_or_app. left. exact H.
Qed.


Lemma itemsOfDay_nonempty (d : Z) (l : list ForecastItem) :
  In d (map dayOf l) -> itemsOfDay d l <> [].
Proof.
  intros H. apply in_map_iff in H. destruct H as (item & E & Hin).
  intros Hnil.
  assert (Hf : In item (itemsOfDay d l)).
  { apply filter_In. split; [exact Hin | apply Z.eqb_eq, E]. }
  rewrite Hnil in Hf. destruct Hf.
Qed.

(** The days visited by the second loop, read in the grouping. *)
Lemma chosen_in_groups (c : Clock) (l : list ForecastItem) (ds : list Z)
    (chosen : list ForecastItem) :
  (forall d, In d ds -> In d (distinctDays l)) ->
  Forall2 (fun d item => exists items,
             lookup d (groupsByCalendarDay l) = Some items
             /\ noonForecast c items = Some item) ds chosen ->
  Forall2 (fun g item => chosenEntry (hourIs11To13 c) (snd g) = Some item)
          (map (fun d => (d, itemsOfDay d l)) ds) chosen.
Proof.
  intros Hin H. induction H as [| d item ds chosen (items & Hl & Hn) _ IH]; simpl.
  - constructor.
  - constructor.
    + unfold groupsByCalendarDay in Hl.
      rewrite (lookup_table (fun k => itemsOfDay k l)) in Hl
        by (apply Hin; left; reflexivity).
      injection Hl as <-. simpl. rewrite <- noonForecast_chosen. exact Hn.
    + apply IH. intros d' Hd'. apply Hin. right. exact Hd'.
Qed.

(** The formatter returns on every well-formed pair of payloads. *)
Lemma format_total (c : Clock) (cur : CurrentData) (fc : ForecastData) :
  wellFormed cur fc -> exists r, formatWeatherDataFromAPI25 c cur fc = inr r.
Proof.
  intros [Hcur Hall]. unfold formatWeatherDataFromAPI25.
  rewrite groupByDay_total
    by (eapply Forall_impl; [| exact Hall]; intros a [Ha _]; exact Ha).
  cbn [rbind]. unfold pickForecasts. rewrite groups_keys.
  assert (Hpick : exists picked,
            fold_left (pickStep c (groupsByCalendarDay (fd_list fc)))
              (firstn 5 (distinctDays (fd_list fc))) (inr []) = inr picked).
  { apply pick_total. apply Forall_forall. intros d Hd. apply firstn_incl in Hd.
    exists (itemsOfDay d (fd_list fc)). split; [| split].
    - apply (lookup_table (fun k => itemsOfDay k (fd_list fc))). exact Hd.
    - apply itemsOfDay_nonempty. apply firstSeen_In. exact Hd.
    - apply Forall_forall. intros item Hitem.
      apply filter_In in Hitem. destruct Hitem as [Hitem _].
      rewrite Forall_forall in Hall. apply (Hall item Hitem). }
  destruct Hpick as (picked & Hp). rewrite Hp. cbn [rbind].
  destruct (cd_weather cur); [contradiction | eexists; reflexivity].
Qed.

(** The shape of every forecast the formatter produces. *)
Lemma forecast_shape (c : Clock) (cur : CurrentData) (fc : ForecastData) (r : WeatherData) :
  formatWeatherDataFromAPI25 c cur fc = inr r ->
  exists chosen picked pad,
    forecast r = picked ++ pad
    /\ Forall2 (fun g item => chosenEntry (hourIs11To13 c) (snd g) = Some item)
               (firstn 5 (groupsByCalendarDay (fd_list fc))) chosen
    /\ Forall2 (fun item fd => toForecastDay c item = inr fd) chosen picked
    /\ length picked = Nat.min 5 (length (distinctDays (fd_list fc)))
    /\ length pad = (5 - length picked)%nat
    /\ Forall (synthesized cur) pad.
Proof.
  intros H.
  destruct (format_inversion _ _ _ _ H) as (groups & picked & Hg & Hp & _ & Hf & _).
  apply groupByDay_inr in Hg. destruct Hg as [-> _].
  unfold pickForecasts in Hp. rewrite groups_keys in Hp.
  apply pick_inversion in Hp. destruct Hp as (chosen & entries & -> & Hc & He).
  cbn [app] in *.
  destruct (fillMissing_pad 5 c (main_temp (cd_main cur)) entries)
    as (pad & E & Hsyn & Hlen).
  assert (Hlen' : length entries = Nat.min 5 (length (distinctDays (fd_list fc)))).
  { rewrite <- (Forall2_length He), <- (Forall2_length Hc). apply length_firstn. }
  exists chosen, entries, pad. repeat split.
  - rewrite Hf. exact E.
  - unfold groupsByCalendarDay at 1. rewrite firstn_map.
    apply chosen_in_groups; [| exact Hc].
    intros d Hd. apply (firstn_incl _ _ _ Hd).
  - exact He.
  - exact Hlen'.
  - rewrite Hlen. lia.
  - exact Hsyn.
Qed.

(** A record resolved by fetchWeatherData was built by the formatter from
    the two payloads received. *)
Lemma fetchWeatherData_inr (net : Network) (c : Clock) (lat lon : number) (r : WeatherData) :
  outcome (fetchWeatherData net c lat lon) = inr r ->
  exists cur fc,
    formatWeatherDataFromAPI25 c cur fc = inr r
    /\ requests (fetchWeatherData net c lat lon) = [GetWeather lat lon; GetForecast lat lon].
Proof.
  unfold fetchWeatherData, outcome, requests, tryCatch, bind, fetch, lift, throw.
  destruct (weatherApi net lat lon) as [e | cr]; [discriminate |].
  destruct (ok cr); [| discriminate].
  destruct (forecastApi net lat lon) as [e | fr]; [discriminate |].
  destruct (ok fr); [| discriminate].
  destruct (json cr) as [e | cur]; [discriminate |].
  destruct (json fr) as [e | fc]; [discriminate |].
  cbn. destruct (formatWeatherDataFromAPI25 c cur fc) as [e | r'] eqn:Hf;
    cbn; intros H; [discriminate |].
  exists cur, fc. split; [congruence | reflexivity].
Qed.

(** C2. Whatever the number of distinct days in the upstream forecast, the
    record produced by formatWeatherDataFromAPI25 has a forecast of exactly
    5 entries: one per distinct day up to five, then entries made up from
    the rounded current temperature and the label 'cloudy'.  The formatter
    does produce a record on every well-formed response, and every record
    resolved by fetchWeatherData has 5 forecast entries. *)
Theorem C2_forecast_has_five_entries (c : Clock) (cur : CurrentData) (fc : ForecastData) :
  (wellFormed cur fc -> exists r, formatWeatherDataFromAPI25 c cur fc = inr r)
  /\ (forall r, formatWeatherDataFromAPI25 c cur fc = inr r ->
        length (forecast r) = 5%nat
        /\ exists picked pad,
             forecast r = picked ++ pad
             /\ length picked = Nat.min 5 (length (distinctDays (fd_list fc)))
             /\ length pad = (5 - length (distinctDays (fd_list fc)))%nat
             /\ Forall (synthesized cur) pad)
  /\ (forall net lat lon r,
        outcome (fetchWeatherData net c lat lon) = inr r ->
        length (forecast r) = 5%nat).
Proof.
  assert (Hfive : forall cur' fc' r,
            formatWeatherDataFromAPI25 c cur' fc' = inr r ->
            length (forecast r) = 5%nat
            /\ exists picked pad,
                 forecast r = picked ++ pad
                 /\ length picked = Nat.min 5 (length (distinctDays (fd_list fc')))
                 /\ length pad = (5 - length (distinctDays (fd_list fc')))%nat
                 /\ Forall (synthesized cur') pad).
  { intros cur' fc' r H.
    destruct (forecast_shape _ _ _ _ H)
      as (chosen & picked & pad & E & _ & _ & Hlen & Hpad & Hsyn).
    split.
    - rewrite E, length_app, Hpad, Hlen. lia.
    - exists picked, pad. repeat split; try assumption.
      rewrite Hpad, Hlen. lia. }
  split; [apply format_total |].
  split; [apply Hfive |].
  intros net lat lon r H.
  destruct (fetchWeatherData_inr _ _ _ _ _ H) as (cur' & fc' & Hf & _).
  apply (Hfive _ _ _ Hf).
Qed.

Lemma C2_forecast_has_five_entries_witness :
  exists r,
    formatWeatherDataFromAPI25 Samples.utcClock
      (Samples.currentWith None) Samples.twoDays = inr r
    /\ length (forecast r) = 5%nat.
Proof.
  destruct (C2_forecast_has_five_entries Samples.utcClock
              (Samples.currentWith None) Samples.twoDays) as (Htotal & Hfive & _).
  destruct Htotal as (r & Hr).
  - split; [discriminate | repeat constructor; discriminate].
  - exists r. split; [exact Hr | apply (Hfive r Hr)].
Defined.





(* ================================================================== *)
(** * Properties of the reverse geocoder                               *)
(* ================================================================== *)

(** Every path of getCityFromCoords, by what the reverse-geocoding call
    did.  A rejected call, a non-success status, a [json()] that rejects
    and a match without a name end with the label for failures; a [null]
    payload or an empty list end with the placeholder, wherever the
    coordinates are. *)
Lemma getCityFromCoords_outcome (net : Network) (lat lon : number) :
  outcome (getCityFromCoords net lat lon) =
  inr (match reverseApi net lat lon with
       | Rejected _ => labelOnFailure lat lon
       | Responded response =>
           if ok response then
             match json response with
             | inl _ => labelOnFailure lat lon
             | inr None | inr (Some []) => "Current Location"
             | inr (Some (p :: _)) =>
                 match pl_name p with
                 | None => labelOnFailure lat lon
                 | Some name => (toUpperCase name ++ ", " ++ pl_country p)%string
                 end
             end
           else labelOnFailure lat lon
       end).
Proof.
  unfold getCityFromCoords, getCityFromCoords_try, getCityFromCoords_catch,
    labelOnFailure, outcome, tryCatch, bind, fetch, lift, ret, throw.
  destruct (reverseApi net lat lon) as [e | response].
  - destruct (nearNewYork lat lon); reflexivity.
  - destruct (ok response); cbn [negb].
    + destruct (json response) as [e | [[| p ps] |]]; cbn;
        try (destruct (nearNewYork lat lon); reflexivity); try reflexivity.
      destruct (pl_name p); cbn; [reflexivity |].
      destruct (nearNewYork lat lon); reflexivity.
    + destruct (nearNewYork lat lon); reflexivity.
Qed.

(** getCityFromCoords resolves to a string on every input. *)
Lemma getCityFromCoords_never_throws (net : Network) (lat lon : number) :
  exists label, outcome (getCityFromCoords net lat lon) = inr label.
Proof. rewrite getCityFromCoords_outcome. eexists. reflexivity. Qed.

(** C1, on the code. At the New York coordinates, which are inside the
    epsilon box, getCityFromCoords answers "NEW YORK, US" when the call is
    rejected and when the status is not a success, but "Current Location"
    when the call succeeds with an empty list: that path returns the
    placeholder without the test on the coordinates. *)
Theorem C1_empty_result_returns_placeholder :
  nearNewYork Samples.newYorkLat Samples.newYorkLon = true
  /\ outcome (getCityFromCoords Samples.offline
                Samples.newYorkLat Samples.newYorkLon) = inr "NEW YORK, US"
  /\ outcome (getCityFromCoords (Samples.reverseAnswers Samples.serverError)
                Samples.newYorkLat Samples.newYorkLon) = inr "NEW YORK, US"
  /\ outcome (getCityFromCoords (Samples.reverseAnswers Samples.emptyResult)
                Samples.newYorkLat Samples.newYorkLon) = inr "Current Location".
Proof. repeat split; vm_compute; reflexivity. Qed.


(* ================================================================== *)
(** * Properties of the location resolver                              *)
(* ================================================================== *)

Import UseGeolocation Reach.

Lemma includes_app_r (sub m t : string) :
  includes sub t = true -> includes sub (m ++ t) = true.
Proof.
  intros H. induction m as [| ch m IH]; [exact H |].
  cbn [append includes]. rewrite IH. apply orb_true_r.
Qed.

(** The advisory that useFallbackLocation attaches. *)
Lemma fallback_advisory (errorMessage : string) :
  includes "Using default location instead."
    (errorMessage ++ " Using default location instead.") = true.
Proof. apply includes_app_r. reflexivity. Qed.

(** The state useFallbackLocation sets, whatever the previous one. *)
Lemma useFallbackLocation_state (errorMessage : string) (prev : GeolocationState) :
  fst (useFallbackLocation errorMessage prev) =
  {| coordinates := Some (mkCoordinates 40.7128%float (- 74.0060)%float);
     error := Some (errorMessage ++ " Using default location instead.")%string;
     loading := false;
     permissionGranted := Some true;
     permissionState := Some "fallback" |}.
Proof. reflexivity. Qed.

(** The error callback, for every code but 1, is useFallbackLocation. *)
Lemma onError_falls_back (firefox : bool) (code : Z) (message : string) :
  code <> 1 ->
  exists errorMessage, onError firefox code message = useFallbackLocation errorMessage.
Proof.
  intros H. unfold onError.
  destruct (Z.eqb_spec code 1) as [E | _]; [contradiction |].
  destruct (code =? 2); [eauto |].
  destruct (code =? 3); eauto.
Qed.

Lemma andThen_fst (a b : Run) (s : GeolocationState) :
  fst (andThen a b s) = fst (b (fst (a s))).
Proof.
  unfold andThen. destruct (a s) as [s1 t1]. cbn [fst].
  destruct (b s1) as [s2 t2]. reflexivity.
Qed.

Lemma andThen_snd (a b : Run) (s : GeolocationState) :
  snd (andThen a b s) = snd (a s) ++ snd (b (fst (a s))).
Proof.
  unfold andThen. destruct (a s) as [s1 t1]. cbn [fst snd].
  destruct (b s1) as [s2 t2]. reflexivity.
Qed.

Lemma requestGeolocation_state (nav : Navigator) (h : Hook) :
  state (fst (requestGeolocation nav h)) =
    fst (requestGeolocation_body nav (isFirefox h) (state h))
  /\ snd (requestGeolocation nav h) =
     snd (requestGeolocation_body nav (isFirefox h) (state h))
  /\ isFirefox (fst (requestGeolocation nav h)) = isFirefox h
  /\ attemptCount (fst (requestGeolocation nav h)) = attemptCount h + 1.
Proof.
  unfold requestGeolocation.
  destruct (requestGeolocation_body nav (isFirefox h) (state h)) as [s t].
  repeat split; reflexivity.
Qed.

(** The position request is logged, and the state it ends in does not
    depend on the state it starts from. *)
Lemma requestPosition_logged (nav : Navigator) (firefox : bool) (s : GeolocationState) :
  In (RequestPosition (geoOptions firefox)) (snd (requestPosition nav firefox s)).
Proof.
  unfold requestPosition. rewrite andThen_snd. left. reflexivity.
Qed.

Lemma requestPosition_state (nav : Navigator) (firefox : bool) (s s' : GeolocationState) :
  fst (requestPosition nav firefox s) = fst (requestPosition nav firefox s').
Proof.
  unfold requestPosition. rewrite !andThen_fst.
  destruct (getCurrentPosition nav (geoOptions firefox)) as [la lo ac | code message | e];
    try reflexivity.
  unfold onError.
  destruct (code =? 1); [| destruct (code =? 2); [| destruct (code =? 3)]]; reflexivity.
Qed.

(** A run in which the position request is made: the geolocation
    capability is there and the pre-flight query, if any, did not report
    'denied'. *)
Lemma requestGeolocation_requests_position (nav : Navigator) (h : Hook) :
  geolocation nav = true ->
  permissions nav <> Some (QueryResolves "denied") ->
  state (fst (requestGeolocation nav h)) =
    fst (requestPosition nav (isFirefox h) (state h))
  /\ In (RequestPosition (geoOptions (isFirefox h))) (snd (requestGeolocation nav h)).
Proof.
  intros Hgeo Hperm.
  destruct (requestGeolocation_state nav h) as (-> & -> & _).
  unfold requestGeolocation_body.
  rewrite Hgeo. cbn [negb]. rewrite andThen_fst, andThen_snd.
  unfold checkPermissionAndGetLocation.
  destruct (permissions nav) as [[e | permissionState] |] eqn:Hq.
  - rewrite andThen_fst, andThen_snd. split.
    + apply requestPosition_state.
    + apply in_or_app. right. apply in_or_app. right. apply requestPosition_logged.
  - destruct (String.eqb_spec permissionState "denied") as [-> | Hne];
      [contradiction |].
    rewrite andThen_fst, andThen_snd. split.
    + apply requestPosition_state.
    + apply in_or_app. right. apply in_or_app. right. apply requestPosition_logged.
  - split.
    + apply requestPosition_state.
    + apply in_or_app. right. apply requestPosition_logged.
Qed.

(** C4. When the position request fails with a code other than 1 (2,
    position unavailable; 3, timeout; or any other), the resolver ends in
    the Fallback state: coordinates exactly (40.7128, -74.0060), loading
    false, and an error message that contains "Using default location
    instead."; this holds for code 3. *)
Theorem C4_position_failure_falls_back (nav : Navigator) (h : Hook)
    (code : Z) (message : string) :
  geolocation nav = true ->
  permissions nav <> Some (QueryResolves "denied") ->
  getCurrentPosition nav (geoOptions (isFirefox h)) = PositionFailed code message ->
  code <> 1 ->
  let s := state (fst (requestGeolocation nav h)) in
  coordinates s = Some (mkCoordinates 40.7128%float (- 74.0060)%float)
  /\ loading s = false
  /\ permissionState s = Some "fallback"
  /\ exists advisory,
       error s = Some advisory
       /\ includes "Using default location instead." advisory = true.
Proof.
  intros Hgeo Hperm Hpos Hcode s.
  destruct (requestGeolocation_requests_position nav h Hgeo Hperm) as [E _].
  subst s. rewrite E. clear E.
  unfold requestPosition. rewrite andThen_fst, Hpos.
  destruct (onError_falls_back (isFirefox h) code message Hcode) as (errorMessage & ->).
  rewrite useFallbackLocation_state. cbn.
  repeat split.
  eexists. split; [reflexivity | apply fallback_advisory].
Qed.

Lemma C4_position_failure_falls_back_witness :
  let s := state (fst (requestGeolocation Samples.timesOut Samples.mounted)) in
  coordinates s = Some (mkCoordinates 40.7128%float (- 74.0060)%float)
  /\ loading s = false
  /\ permissionState s = Some "fallback"
  /\ exists advisory,
       error s = Some advisory
       /\ includes "Using default location instead." advisory = true.
Proof.
  apply (C4_position_failure_falls_back Samples.timesOut Samples.mounted
           3 "Timeout expired").
  - reflexivity.
  - discriminate.
  - reflexivity.
  - lia.
Defined.

(** C5. In every run of requestGeolocation where the pre-flight permission
    query reports 'denied', the resolver ends in the Denied state
    (coordinates null, permissionGranted false, permissionState 'denied',
    loading false) and no position request is ever issued: the trace is the
    loading update, the query and the Denied update. *)
Theorem C5_denied_query_never_requests_position (nav : Navigator) (h : Hook) :
  geolocation nav = true ->
  permissions nav = Some (QueryResolves "denied") ->
  let s := state (fst (requestGeolocation nav h)) in
  let trace := snd (requestGeolocation nav h) in
  coordinates s = None
  /\ permissionGranted s = Some false
  /\ permissionState s = Some "denied"
  /\ loading s = false
  /\ existsb isRequestPosition trace = false
  /\ exists loadingState, trace = [SetState loadingState; QueryPermission; SetState s].
Proof.
  intros Hgeo Hperm s trace. subst s trace.
  destruct (requestGeolocation_state nav h) as (-> & -> & _).
  unfold requestGeolocation_body. rewrite Hgeo. cbn [negb].
  rewrite andThen_fst, andThen_snd.
  unfold checkPermissionAndGetLocation. rewrite Hperm.
  rewrite andThen_fst, andThen_snd. cbn.
  repeat split. eexists. reflexivity.
Qed.

Lemma C5_denied_query_never_requests_position_witness :
  let s := state (fst (requestGeolocation Samples.alreadyDenied Samples.mounted)) in
  let trace := snd (requestGeolocation Samples.alreadyDenied Samples.mounted) in
  coordinates s = None
  /\ permissionGranted s = Some false
  /\ permissionState s = Some "denied"
  /\ loading s = false
  /\ existsb isRequestPosition trace = false
  /\ exists loadingState, trace = [SetState loadingState; QueryPermission; SetState s].
Proof.
  apply (C5_denied_query_never_requests_position Samples.alreadyDenied Samples.mounted);
    reflexivity.
Defined.

(** Each state set during a run keeps the invariant, and so does the
    state the run ends in. *)
Lemma body_keeps_fallbackIsGranted (nav : Navigator) (firefox : bool)
    (s : GeolocationState) :
  fallbackIsGranted s ->
  fallbackIsGranted (fst (requestGeolocation_body nav firefox s))
  /\ Forall fallbackIsGranted (statesOf (snd (requestGeolocation_body nav firefox s))).
Proof.
  intros H.
  assert (Hload : fallbackIsGranted
            {| coordinates := coordinates s; error := error s; loading := true;
               permissionGranted := permissionGranted s;
               permissionState := permissionState s |}) by exact H.
  assert (Hpos : forall s0,
            fallbackIsGranted (fst (requestPosition nav firefox s0))
            /\ Forall fallbackIsGranted (statesOf (snd (requestPosition nav firefox s0)))).
  { intros s0. unfold requestPosition. rewrite andThen_fst, andThen_snd.
    destruct (getCurrentPosition nav (geoOptions firefox)) as [la lo ac | code message | e];
      [ | unfold onError;
          destruct (code =? 1); [| destruct (code =? 2); [| destruct (code =? 3)]] | ];
      cbn; (split; [| repeat constructor]); intros Hf; try discriminate Hf; reflexivity. }
  unfold requestGeolocation_body.
  destruct (geolocation nav); cbn [negb].
  - rewrite andThen_fst, andThen_snd. unfold checkPermissionAndGetLocation.
    destruct (permissions nav) as [[e | permissionState] |].
    + rewrite andThen_fst, andThen_snd. cbn. split; [apply Hpos |].
      constructor; [exact Hload | apply Hpos].
    + destruct (permissionState =? "denied")%string.
      * rewrite andThen_fst, andThen_snd. cbn.
        split; [| repeat constructor; try exact Hload]; intros Hf; discriminate Hf.
      * rewrite andThen_fst, andThen_snd. cbn. split; [apply Hpos |].
        constructor; [exact Hload | apply Hpos].
    + cbn. split; [apply Hpos |].
      constructor; [exact Hload | apply Hpos].
  - cbn. split; [| repeat constructor]; intros Hf; discriminate Hf.
Qed.

(** C9. Every transition into the Fallback state, i.e. every call of
    useFallbackLocation, sets permissionState to 'fallback' together with
    permissionGranted = true, the value the success callback sets; hence in
    every reachable state of the hook, and in every state set during a call
    of requestGeolocation from one, permissionState 'fallback' comes with
    permissionGranted = true. *)
Theorem C9_fallback_reports_permission_granted :
  (forall errorMessage prev,
     permissionState (fst (useFallbackLocation errorMessage prev)) = Some "fallback"
     /\ permissionGranted (fst (useFallbackLocation errorMessage prev)) = Some true
     /\ forall latitude longitude,
          permissionGranted (fst (useFallbackLocation errorMessage prev))
          = permissionGranted (fst (onSuccess latitude longitude prev)))
  /\ (forall h, reachable h -> fallbackIsGranted (state h))
  /\ (forall nav h, reachable h ->
        Forall fallbackIsGranted (statesOf (snd (requestGeolocation nav h)))).
Proof.
  assert (Hreach : forall h, reachable h -> fallbackIsGranted (state h)).
  { intros h Hr. induction Hr as [firefox | nav h Hr IH].
    - intros Hf. discriminate Hf.
    - destruct (requestGeolocation_state nav h) as (-> & _).
      apply body_keeps_fallbackIsGranted, IH. }
  split; [intros; repeat split |].
  split; [exact Hreach |].
  intros nav h Hr.
  destruct (requestGeolocation_state nav h) as (_ & -> & _).
  apply body_keeps_fallbackIsGranted, Hreach, Hr.
Qed.


(* ================================================================== *)
(** * Properties of the page handlers                                  *)
(* ================================================================== *)

Import WeatherApp.

(** The [try] block of fetchWeatherByCoordinates fails exactly when
    fetchWeatherData does, and with the same error: getCityFromCoords
    never throws. *)
Lemma try_fails_with_the_weather_fetch (net : Network) (c : Clock)
    (lat lon : number) (err : JsError) :
  outcome (fetchWeatherByCoordinates_try net c lat lon) = inl err <->
  outcome (fetchWeatherData net c lat lon) = inl err.
Proof.
  unfold fetchWeatherByCoordinates_try, outcome, bind.
  destruct (fetchWeatherData net c lat lon) as [log [e | data]]; cbn [snd].
  - reflexivity.
  - pose proof (getCityFromCoords_outcome net lat lon) as Hcity.
    unfold outcome in Hcity.
    destruct (getCityFromCoords net lat lon) as [log' r]. cbn [snd] in Hcity.
    subst r. cbn. split; discriminate.
Qed.

(** C7. When fetchWeatherByCoordinates fails (its [try] block throws,
    which is the weather fetch throwing): if no record is held, the
    hardcoded fallback record is substituted and the blocking error
    "Failed to fetch weather data: ..." is set; if a record is held, it is
    kept unchanged and no error is set.  Loading ends false either way. *)
Theorem C7_failure_substitutes_or_keeps (net : Network) (c : Clock)
    (lat lon : number) (st : AppState) (err : JsError) :
  outcome (fetchWeatherByCoordinates_try net c lat lon) = inl err ->
  let st' := fst (fetchWeatherByCoordinates net c lat lon st) in
  outcome (fetchWeatherData net c lat lon) = inl err
  /\ loading st' = false
  /\ searchQuery st' = searchQuery st
  /\ match weatherData st with
     | None =>
         weatherData st' = Some fallbackWeatherData
         /\ error st' =
            Some ("Failed to fetch weather data: "
                  ++ (if nonEmpty (err_message err)
                      then err_message err
                      else "Please try again."))%string
     | Some held =>
         weatherData st' = Some held /\ error st' = None
     end.
Proof.
  intros H st'. subst st'.
  split; [apply try_fails_with_the_weather_fetch, H |].
  unfold fetchWeatherByCoordinates. rewrite H.
  destruct (weatherData st) as [held |] eqn:Hw; cbn; rewrite ?Hw; repeat split.
Qed.

Lemma C7_failure_substitutes_or_keeps_witness :
  let st' := fst (fetchWeatherByCoordinates Samples.offline Samples.utcClock
                    Samples.newYorkLat Samples.newYorkLon (Samples.blankPage EmptyString)) in
  weatherData st' = Some fallbackWeatherData
  /\ error st' = Some "Failed to fetch weather data: Failed to fetch".
Proof.
  apply (C7_failure_substitutes_or_keeps Samples.offline Samples.utcClock
           Samples.newYorkLat Samples.newYorkLon (Samples.blankPage EmptyString)
           Samples.failedToFetch).
  reflexivity.
Defined.

(** ** Search *)





(* ================================================================== *)
(** * Further properties of the weather service                        *)
(* ================================================================== *)

(** X1. fetchWeatherData fails fast. When the current-conditions call is
    rejected, or answers with a status that is not a success, the promise
    rejects (with the rejection, or with "Weather API 2.5 current error:
    <status>") after that single request: the forecast endpoint is never
    called. *)
Theorem fetchWeatherData_fails_fast (net : Network) (c : Clock) (lat lon : number) :
  (forall e,
     weatherApi net lat lon = Rejected e ->
     fetchWeatherData net c lat lon = ([GetWeather lat lon], inl e))
  /\ (forall response,
        weatherApi net lat lon = Responded response ->
        ok response = false ->
        fetchWeatherData net c lat lon =
        ([GetWeather lat lon],
         inl (Error ("Weather API 2.5 current error: " ++ showZ (status response))))).
Proof.
  unfold fetchWeatherData, tryCatch, bind, fetch, throw. split.
  - intros e ->. reflexivity.
  - intros response -> ->. reflexivity.
Qed.

Lemma fetchWeatherData_fails_fast_witness :
  fetchWeatherData MoreSamples.weatherDown Samples.utcClock
    Samples.newYorkLat Samples.newYorkLon =
  ([GetWeather Samples.newYorkLat Samples.newYorkLon],
   inl (Error "Weather API 2.5 current error: 503")).
Proof.
  destruct (fetchWeatherData_fails_fast MoreSamples.weatherDown Samples.utcClock
              Samples.newYorkLat Samples.newYorkLon) as [_ H].
  apply (H (mkResponse false 503 (inl Samples.failedToFetch))); reflexivity.
Defined.

(** X2. When the current-conditions call succeeded but the forecast call is
    rejected or answers with a non-success status, fetchWeatherData rejects
    after exactly the two requests, with the rejection or with "Weather API
    2.5 forecast error: <status>"; neither body has been parsed by then, so
    this holds even when the current-conditions body is not valid JSON. *)
Theorem fetchWeatherData_forecast_failure (net : Network) (c : Clock) (lat lon : number)
    (current : Response CurrentData) :
  weatherApi net lat lon = Responded current ->
  ok current = true ->
  (forall e,
     forecastApi net lat lon = Rejected e ->
     fetchWeatherData net c lat lon = ([GetWeather lat lon; GetForecast lat lon], inl e))
  /\ (forall response,
        forecastApi net lat lon = Responded response ->
        ok response = false ->
        fetchWeatherData net c lat lon =
        ([GetWeather lat lon; GetForecast lat lon],
         inl (Error ("Weather API 2.5 forecast error: " ++ showZ (status response))))).
Proof.
  intros Hcur Hok.
  unfold fetchWeatherData, tryCatch, bind, fetch, throw. rewrite Hcur, Hok. split.
  - intros e ->. reflexivity.
  - intros response -> ->. reflexivity.
Qed.

Lemma fetchWeatherData_forecast_failure_witness :
  fetchWeatherData MoreSamples.forecastDown Samples.utcClock
    Samples.newYorkLat Samples.newYorkLon =
  ([GetWeather Samples.newYorkLat Samples.newYorkLon;
    GetForecast Samples.newYorkLat Samples.newYorkLon],
   inl (Error "Weather API 2.5 forecast error: 429")).
Proof.
  destruct (fetchWeatherData_forecast_failure MoreSamples.forecastDown Samples.utcClock
              Samples.newYorkLat Samples.newYorkLon
              (mkResponse true 200 (inl (mkError "SyntaxError" "Unexpected token"))))
    as [_ H]; [reflexivity | reflexivity |].
  apply (H (mkResponse false 429 (inl Samples.failedToFetch))); reflexivity.
Defined.

(** X3. fetchWeatherByCity on a geocoder that knows no match ([null] or an
    empty array): it rejects with "City not found: <city>" after the single
    geocoding request, and no weather endpoint is called. *)
Theorem fetchWeatherByCity_not_found (net : Network) (c : Clock) (city : string)
    (response : Response (option (list GeoMatch))) :
  directApi net city = Responded response ->
  ok response = true ->
  json response = inr None \/ json response = inr (Some []) ->
  fetchWeatherByCity net c city =
  ([GetDirect city], inl (Error ("City not found: " ++ city))).
Proof.
  intros Hd Hok Hjson.
  unfold fetchWeatherByCity, tryCatch, bind, fetch, lift, throw.
  rewrite Hd, Hok. destruct Hjson as [-> | ->]; reflexivity.
Qed.

Lemma fetchWeatherByCity_not_found_witness :
  fetchWeatherByCity Samples.cityUnknown Samples.utcClock "Atlantis" =
  ([GetDirect "Atlantis"], inl (Error "City not found: Atlantis")).
Proof.
  apply (fetchWeatherByCity_not_found Samples.cityUnknown Samples.utcClock "Atlantis"
           (mkResponse true 200 (inr (Some [])))).
  - reflexivity.
  - reflexivity.
  - right. reflexivity.
Defined.

(** X4. fetchWeatherByCity on a geocoder with matches: it settles exactly as
    fetchWeatherData at the coordinates of the first match, after the
    geocoding request followed by the requests of that call; the other
    matches are not looked at. *)
Theorem fetchWeatherByCity_first_match (net : Network) (c : Clock) (city : string)
    (response : Response (option (list GeoMatch))) (first : GeoMatch)
    (others : list GeoMatch) :
  directApi net city = Responded response ->
  ok response = true ->
  json response = inr (Some (first :: others)) ->
  outcome (fetchWeatherByCity net c city)
  = outcome (fetchWeatherData net c (gm_lat first) (gm_lon first))
  /\ requests (fetchWeatherByCity net c city)
     = GetDirect city :: requests (fetchWeatherData net c (gm_lat first) (gm_lon first)).
Proof.
  intros Hd Hok Hjson.
  unfold fetchWeatherByCity, tryCatch, bind, fetch, lift, throw, outcome, requests.
  rewrite Hd, Hok, Hjson.
  destruct (fetchWeatherData net c (gm_lat first) (gm_lon first)) as [log [e | data]];
    cbn; rewrite ?app_nil_r; split; reflexivity.
Qed.

Lemma fetchWeatherByCity_first_match_witness :
  outcome (fetchWeatherByCity Samples.online Samples.utcClock "Paris")
  = outcome (fetchWeatherData Samples.online Samples.utcClock 48.8589%float 2.32%float)
  /\ requests (fetchWeatherByCity Samples.online Samples.utcClock "Paris")
     = GetDirect "Paris"
       :: requests (fetchWeatherData Samples.online Samples.utcClock
                      48.8589%float 2.32%float).
Proof.
  apply (fetchWeatherByCity_first_match Samples.online Samples.utcClock "Paris"
           (mkResponse true 200 (inr (Some [mkGeoMatch 48.8589%float 2.32%float])))
           (mkGeoMatch 48.8589%float 2.32%float) []);
    reflexivity.
Defined.

(** X5. getCityFromCoords always resolves, after exactly one reverse-geocoding
    request.  When the call is rejected, when the status is not a success,
    when the body cannot be parsed and when the first place has no name,
    the label is "NEW YORK, US" for coordinates within 0.01 of (40.7128,
    -74.0060) in both directions and "Current Location" otherwise. *)
Theorem getCityFromCoords_failure_label (net : Network) (lat lon : number) :
  requests (getCityFromCoords net lat lon) = [GetReverse lat lon]
  /\ (exists label, outcome (getCityFromCoords net lat lon) = inr label)
  /\ (forall e,
        reverseApi net lat lon = Rejected e ->
        outcome (getCityFromCoords net lat lon) = inr (labelOnFailure lat lon))
  /\ (forall response,
        reverseApi net lat lon = Responded response ->
        ok response = false
        \/ (ok response = true /\ exists e, json response = inl e)
        \/ (ok response = true
            /\ exists place places,
                 json response = inr (Some (place :: places)) /\ pl_name place = None) ->
        outcome (getCityFromCoords net lat lon) = inr (labelOnFailure lat lon)).
Proof.
  split; [| split; [apply getCityFromCoords_never_throws | split]].
  - unfold getCityFromCoords, getCityFromCoords_try, getCityFromCoords_catch,
      requests, tryCatch, bind, fetch, lift, ret, throw.
    destruct (reverseApi net lat lon) as [e | response].
    + destruct (nearNewYork lat lon); reflexivity.
    + destruct (ok response); cbn [negb].
      * destruct (json response) as [e | [[| p ps] |]]; cbn;
          try (destruct (nearNewYork lat lon); reflexivity); try reflexivity.
        destruct (pl_name p); cbn; [reflexivity |].
        destruct (nearNewYork lat lon); reflexivity.
      * destruct (nearNewYork lat lon); reflexivity.
  - intros e He. rewrite getCityFromCoords_outcome, He. reflexivity.
  - intros response Hr H. rewrite getCityFromCoords_outcome, Hr.
    destruct H as [-> | [(-> & e & ->) | (-> & place & places & -> & ->)]];
      reflexivity.
Qed.

Lemma getCityFromCoords_failure_label_witness :
  outcome (getCityFromCoords (Samples.reverseAnswers Samples.serverError)
             51.5072%float (-0.1276)%float) = inr "Current Location".
Proof.
  destruct (getCityFromCoords_failure_label (Samples.reverseAnswers Samples.serverError)
              51.5072%float (-0.1276)%float) as (_ & _ & _ & H).
  apply (H (mkResponse false 500 (inr None))); [reflexivity | left; reflexivity].
Defined.

(** ** Edge and error behaviour of the formatter *)

Lemma groupByDay_invalid (l : list ForecastItem) :
  Exists (fun item => validTime (itemTime item) = false) l ->
  forall m, fold_left groupStep l (inr m) = inl (RangeError "Invalid time value").
Proof.
  induction l as [| x l IH]; intros H m; [inversion H |].
  cbn [fold_left]. unfold groupStep at 2. cbn [rbind].
  destruct (validTime (itemTime x)) eqn:Hv.
  - apply IH. inversion H as [? ? Hx | ? ? Hl]; subst; [congruence | exact Hl].
  - apply fold_groupStep_inl.
Qed.

(** X6. One entry with a time stamp outside the range of [Date] (more than
    8.64e15 ms from the epoch), anywhere in the feed, makes
    formatWeatherDataFromAPI25 throw RangeError "Invalid time value",
    whatever the other entries and the current conditions are. *)
Theorem format_rejects_invalid_time (c : Clock) (cur : CurrentData) (fc : ForecastData)
    (item : ForecastItem) :
  In item (fd_list fc) ->
  validTime (itemTime item) = false ->
  formatWeatherDataFromAPI25 c cur fc = inl (RangeError "Invalid time value").
Proof.
  intros Hin Hv. unfold formatWeatherDataFromAPI25, groupByDay.
  rewrite groupByDay_invalid; [reflexivity |].
  apply Exists_exists. exists item. split; assumption.
Qed.

Lemma format_rejects_invalid_time_witness :
  formatWeatherDataFromAPI25 Samples.utcClock (Samples.currentWith None)
    MoreSamples.brokenFeed = inl (RangeError "Invalid time value").
Proof.
  apply (format_rejects_invalid_time Samples.utcClock (Samples.currentWith None)
           MoreSamples.brokenFeed (Samples.entry 9000000000000000 5.0%float "Clear")).
  - right. left. reflexivity.
  - reflexivity.
Defined.





Lemma firstSeen_app_prefix (a b : list Z) :
  exists rest, firstSeen (a ++ b) = firstSeen a ++ rest.
Proof.
  induction b as [| d b IH] using rev_ind.
  - exists []. rewrite !app_nil_r. reflexivity.
  - destruct IH as (rest & E). rewrite app_assoc, firstSeen_snoc, E.
    destruct (existsb (Z.eqb d) (a ++ b)).
    + exists rest. reflexivity.
    + exists (rest ++ [d]). rewrite app_assoc. reflexivity.
Qed.

Lemma pick_fold_ext (c : Clock) (m m' : ByDay) (ds : list Z) :
  (forall d, In d ds -> lookup d m = lookup d m') ->
  forall acc, fold_left (pickStep c m) ds acc = fold_left (pickStep c m') ds acc.
Proof.
  induction ds as [| d ds IH]; intros H acc; [reflexivity |].
  cbn [fold_left].
  replace (pickStep c m acc d) with (pickStep c m' acc d).
  - apply IH. intros d' Hd'. apply H. right. exact Hd'.
  - unfold pickStep. rewrite (H d) by (left; reflexivity). reflexivity.
Qed.

(** X8. Only the first five days of the feed count. Once the feed holds five
    distinct days, appending entries of any other day changes nothing in
    the result of formatWeatherDataFromAPI25, provided their time stamps
    are valid: they may even lack a weather tag. *)
Theorem format_ignores_later_days (c : Clock) (cur : CurrentData)
    (l extra : list ForecastItem) :
  (5 <= length (distinctDays l))%nat ->
  Forall (fun item => validTime (itemTime item) = true
                      /\ ~ In (dayOf item) (firstn 5 (distinctDays l))) extra ->
  formatWeatherDataFromAPI25 c cur (mkForecastData (l ++ extra))
  = formatWeatherDataFromAPI25 c cur (mkForecastData l).
Proof.
  intros Hfive Hextra.
  unfold formatWeatherDataFromAPI25. cbn [fd_list].
  destruct (groupByDay l) as [e | m] eqn:Hg.
  - unfold groupByDay in *. rewrite fold_left_app, Hg, fold_groupStep_inl. reflexivity.
  - destruct (groupByDay_inr _ _ Hg) as [-> Hvalid].
    rewrite groupByDay_total.
    2:{ apply Forall_app. split; [exact Hvalid |].
        eapply Forall_impl; [| exact Hextra]. intros a [Ha _]. exact Ha. }
    cbn [rbind].
    replace (pickForecasts c (groupsByCalendarDay (l ++ extra)))
      with (pickForecasts c (groupsByCalendarDay l)); [reflexivity |].
    unfold pickForecasts. rewrite !groups_keys.
    destruct (firstSeen_app_prefix (map dayOf l) (map dayOf extra)) as (rest & Hrest).
    assert (Hkeys : firstn 5 (distinctDays (l ++ extra)) = firstn 5 (distinctDays l)).
    { unfold distinctDays at 1. rewrite map_app, Hrest, firstn_app.
      fold (distinctDays l).
      replace (5 - length (distinctDays l))%nat with 0%nat by lia.
      rewrite firstn_0. apply app_nil_r. }
    rewrite Hkeys. symmetry. apply pick_fold_ext.
    intros d Hd. unfold groupsByCalendarDay.
    rewrite (lookup_table (fun k => itemsOfDay k (l ++ extra))).
    2:{ unfold distinctDays. rewrite map_app, Hrest. apply in_or_app. left.
        apply (firstn_incl _ _ _ Hd). }
    rewrite (lookup_table (fun k => itemsOfDay k l)) by apply (firstn_incl _ _ _ Hd).
    f_equal. unfold itemsOfDay. rewrite filter_app.
    fold (itemsOfDay d extra). rewrite (itemsOfDay_absent d extra).
    + apply app_nil_r.
    + intros Hin. apply in_map_iff in Hin. destruct Hin as (item & E & Hitem).
      rewrite Forall_forall in Hextra. destruct (Hextra item Hitem) as [_ Hnot].
      apply Hnot. rewrite E. exact Hd.
Qed.

Lemma format_ignores_later_days_witness :
  formatWeatherDataFromAPI25 Samples.utcClock (Samples.currentWith None)
    (mkForecastData (MoreSamples.sixDays ++ MoreSamples.laterEntries))
  = formatWeatherDataFromAPI25 Samples.utcClock (Samples.currentWith None)
      (mkForecastData MoreSamples.sixDays).
Proof.
  apply (format_ignores_later_days Samples.utcClock (Samples.currentWith None)
           MoreSamples.sixDays MoreSamples.laterEntries).
  - vm_compute. lia.
  - repeat constructor; vm_compute; intuition discriminate.
Defined.


(* ================================================================== *)
(** * Further properties of the location resolver                      *)
(* ================================================================== *)

Import UseGeolocation.

(** Every path through the body of requestGeolocation. *)
Ltac run_paths :=
  unfold requestGeolocation_body, checkPermissionAndGetLocation, requestPosition,
    onError, onSuccess, deniedByQuery, useFallbackLocation, andThen, setState, emit;
  repeat (cbn;
    match goal with
    | |- context [if negb ?b then _ else _] => destruct b eqn:?; cbn [negb]
    | |- context [match permissions ?n with _ => _ end] =>
        destruct (permissions n) as [[? | ?] |] eqn:?
    | |- context [if (?p =? "denied")%string then _ else _] =>
        destruct (p =? "denied")%string eqn:?
    | |- context [match getCurrentPosition ?n ?o with _ => _ end] =>
        destruct (getCurrentPosition n o) as [? ? ? | ? ? | ?] eqn:?
    | |- context [if (?c =? ?k)%Z then _ else _] => destruct (c =? k)%Z eqn:?
    end);
  cbn.

(** X9. Every run of requestGeolocation settles: loading is false again and the
    state is one of the four terminal ones, with permissionGranted false
    for 'unsupported' and 'denied' (coordinates null when denied) and true
    for 'granted' and 'fallback' (coordinates present, the fallback
    constant in the second case); the error is null exactly when the state
    is 'granted'; and at most one position request was issued. *)
Theorem requestGeolocation_settles (nav : Navigator) (h : Hook) :
  let s := state (fst (requestGeolocation nav h)) in
  let trace := snd (requestGeolocation nav h) in
  loading s = false
  /\ ((permissionState s = Some "unsupported" /\ permissionGranted s = Some false
       /\ geolocation nav = false)
      \/ (permissionState s = Some "denied" /\ permissionGranted s = Some false
          /\ coordinates s = None)
      \/ (permissionState s = Some "granted" /\ permissionGranted s = Some true
          /\ coordinates s <> None)
      \/ (permissionState s = Some "fallback" /\ permissionGranted s = Some true
          /\ coordinates s = Some fallbackCoords))
  /\ (error s = None <-> permissionState s = Some "granted")
  /\ (length (filter isRequestPosition trace) <= 1)%nat.
Proof.
  intros s trace. subst s trace.
  destruct (requestGeolocation_state nav h) as (-> & -> & _).
  run_paths;
    (split; [reflexivity |]);
    (split; [| split; [split; intros Hx; (discriminate Hx || reflexivity) | lia]]);
    first [ left; repeat split; (reflexivity || assumption)
          | right; left; repeat split; reflexivity
          | right; right; left; repeat split; (reflexivity || discriminate)
          | right; right; right; repeat split; reflexivity ].
Qed.

(** X10. When the browser has no geolocation, requestGeolocation makes no
    permission query and no position request: its only step sets the
    'unsupported' state, which keeps the coordinates the hook held before
    and reports the permission as false. *)
Theorem requestGeolocation_unsupported (nav : Navigator) (h : Hook) :
  geolocation nav = false ->
  let s := state (fst (requestGeolocation nav h)) in
  snd (requestGeolocation nav h) = [SetState s]
  /\ coordinates s = coordinates (state h)
  /\ error s = Some "Geolocation is not supported by your browser"
  /\ permissionGranted s = Some false
  /\ permissionState s = Some "unsupported"
  /\ loading s = false.
Proof.
  intros Hgeo s. subst s.
  destruct (requestGeolocation_state nav h) as (-> & -> & _).
  unfold requestGeolocation_body. rewrite Hgeo. cbn. repeat split.
Qed.

Lemma requestGeolocation_unsupported_witness :
  let s := state (fst (requestGeolocation MoreSamples.noGeolocation Samples.mounted)) in
  snd (requestGeolocation MoreSamples.noGeolocation Samples.mounted) = [SetState s]
  /\ coordinates s = coordinates (state Samples.mounted)
  /\ error s = Some "Geolocation is not supported by your browser"
  /\ permissionGranted s = Some false
  /\ permissionState s = Some "unsupported"
  /\ loading s = false.
Proof.
  apply (requestGeolocation_unsupported MoreSamples.noGeolocation Samples.mounted).
  reflexivity.
Defined.

(** X11. When the position request is made (geolocation is there and the
    pre-flight query, if any, did not answer 'denied': it may have been
    rejected), its outcome alone decides the state: a position gives the
    'granted' state with the reported latitude and longitude and no error;
    error code 1 gives the 'denied' state without coordinates; an
    exception thrown by getCurrentPosition gives the fallback state. *)
Theorem requestGeolocation_position_decides (nav : Navigator) (h : Hook) :
  geolocation nav = true ->
  permissions nav <> Some (QueryResolves "denied") ->
  let s := state (fst (requestGeolocation nav h)) in
  (forall latitude longitude accuracy,
     getCurrentPosition nav (geoOptions (isFirefox h))
       = PositionFound latitude longitude accuracy ->
     s = {| coordinates := Some (mkCoordinates latitude longitude);
            error := None;
            loading := false;
            permissionGranted := Some true;
            permissionState := Some "granted" |})
  /\ (forall message,
        getCurrentPosition nav (geoOptions (isFirefox h)) = PositionFailed 1 message ->
        coordinates s = None
        /\ permissionGranted s = Some false
        /\ permissionState s = Some "denied"
        /\ loading s = false
        /\ exists advice, error s = Some advice
                          /\ prefix "Permission denied." advice = true)
  /\ (forall e,
        getCurrentPosition nav (geoOptions (isFirefox h)) = PositionThrows e ->
        s = {| coordinates := Some fallbackCoords;
               error := Some "Unexpected error getting location. Using default location instead.";
               loading := false;
               permissionGranted := Some true;
               permissionState := Some "fallback" |}).
Proof.
  intros Hgeo Hperm s. subst s.
  destruct (requestGeolocation_requests_position nav h Hgeo Hperm) as [-> _].
  unfold requestPosition. rewrite andThen_fst.
  split; [| split].
  - intros la lo ac ->. reflexivity.
  - intros message ->. unfold onError. cbn.
    repeat split. destruct (isFirefox h); eexists; split; reflexivity.
  - intros e ->. reflexivity.
Qed.

Lemma requestGeolocation_position_decides_witness :
  state (fst (requestGeolocation MoreSamples.berlin Samples.mounted))
  = {| coordinates := Some (mkCoordinates 52.52%float 13.405%float);
       error := None;
       loading := false;
       permissionGranted := Some true;
       permissionState := Some "granted" |}
  /\ permissionState (state (fst (requestGeolocation MoreSamples.refuses Samples.mounted)))
     = Some "denied".
Proof.
  split.
  - destruct (requestGeolocation_position_decides MoreSamples.berlin Samples.mounted)
      as (Hfound & _); [reflexivity | discriminate |].
    apply (Hfound _ _ 20%float). reflexivity.
  - destruct (requestGeolocation_position_decides MoreSamples.refuses Samples.mounted)
      as (_ & Hdenied & _); [reflexivity | discriminate |].
    apply (Hdenied "User denied Geolocation"). reflexivity.
Defined.

(** X12. The hook keeps no history. Where geolocation is available, the state
    after a call of requestGeolocation does not depend on the state before
    it; and in every browser, calling requestGeolocation a second time
    gives the state the first call gave. *)
Theorem requestGeolocation_forgets_history (nav : Navigator) (h : Hook) :
  (geolocation nav = true ->
   forall h', isFirefox h' = isFirefox h ->
              state (fst (requestGeolocation nav h'))
              = state (fst (requestGeolocation nav h)))
  /\ state (fst (requestGeolocation nav (fst (requestGeolocation nav h))))
     = state (fst (requestGeolocation nav h)).
Proof.
  assert (Hindep : forall firefox s s',
            geolocation nav = true ->
            fst (requestGeolocation_body nav firefox s)
            = fst (requestGeolocation_body nav firefox s')).
  { intros firefox s s' Hgeo. unfold requestGeolocation_body. rewrite Hgeo. cbn [negb].
    rewrite !andThen_fst. unfold checkPermissionAndGetLocation.
    destruct (permissions nav) as [[e | p] |].
    - rewrite !andThen_fst. apply requestPosition_state.
    - destruct (p =? "denied")%string.
      + rewrite !andThen_fst. reflexivity.
      + rewrite !andThen_fst. apply requestPosition_state.
    - apply requestPosition_state. }
  split.
  - intros Hgeo h' Hff.
    destruct (requestGeolocation_state nav h) as (-> & _).
    destruct (requestGeolocation_state nav h') as (-> & _).
    rewrite Hff. apply Hindep, Hgeo.
  - destruct (requestGeolocation_state nav (fst (requestGeolocation nav h)))
      as (-> & _).
    destruct (requestGeolocation_state nav h) as (-> & _ & -> & _).
    destruct (geolocation nav) eqn:Hgeo.
    + apply Hindep. reflexivity.
    + unfold requestGeolocation_body. rewrite Hgeo. reflexivity.
Qed.

Lemma requestGeolocation_forgets_history_witness :
  state (fst (requestGeolocation Samples.timesOut
                (fst (requestGeolocation MoreSamples.berlin Samples.mounted))))
  = state (fst (requestGeolocation Samples.timesOut Samples.mounted)).
Proof.
  destruct (requestGeolocation_forgets_history Samples.timesOut Samples.mounted)
    as [H _].
  apply H; reflexivity.
Defined.


(* ================================================================== *)
(** * Further properties of the page                                   *)
(* ================================================================== *)

Import WeatherApp WeatherAppEffects.

Lemma fetchWeatherData_requests (net : Network) (c : Clock) (lat lon : number) :
  requests (fetchWeatherData net c lat lon) = [GetWeather lat lon]
  \/ requests (fetchWeatherData net c lat lon) = [GetWeather lat lon; GetForecast lat lon].
Proof.
  unfold fetchWeatherData, requests, tryCatch, bind, fetch, lift, throw.
  destruct (weatherApi net lat lon) as [e | cr]; [left; reflexivity |].
  destruct (ok cr); [| left; reflexivity].
  destruct (forecastApi net lat lon) as [e | fr]; [right; reflexivity |].
  destruct (ok fr); [| right; reflexivity].
  destruct (json cr) as [e | cur]; [right; reflexivity |].
  destruct (json fr) as [e | fc]; [right; reflexivity |].
  cbn. destruct (formatWeatherDataFromAPI25 c cur fc); right; reflexivity.
Qed.

Lemma getCityFromCoords_requests (net : Network) (lat lon : number) :
  requests (getCityFromCoords net lat lon) = [GetReverse lat lon].
Proof.
  unfold getCityFromCoords, getCityFromCoords_try, getCityFromCoords_catch,
    requests, tryCatch, bind, fetch, lift, ret, throw.
  destruct (reverseApi net lat lon) as [e | response].
  - destruct (nearNewYork lat lon); reflexivity.
  - destruct (ok response); cbn [negb].
    + destruct (json response) as [e | [[| p ps] |]]; cbn;
        try (destruct (nearNewYork lat lon); reflexivity); try reflexivity.
      destruct (pl_name p); cbn; [reflexivity |].
      destruct (nearNewYork lat lon); reflexivity.
    + destruct (nearNewYork lat lon); reflexivity.
Qed.

(** The [try] block of fetchWeatherByCoordinates, by its two calls. *)
Lemma try_requests (net : Network) (c : Clock) (lat lon : number) :
  requests (fetchWeatherByCoordinates_try net c lat lon) =
  match outcome (fetchWeatherData net c lat lon) with
  | inl _ => requests (fetchWeatherData net c lat lon)
  | inr _ => requests (fetchWeatherData net c lat lon) ++ [GetReverse lat lon]
  end
  /\ outcome (fetchWeatherByCoordinates_try net c lat lon) =
     match outcome (fetchWeatherData net c lat lon),
           outcome (getCityFromCoords net lat lon) with
     | inl e, _ => inl e
     | inr data, inr locationName => inr (withLocation data locationName)
     | inr _, inl e => inl e
     end.
Proof.
  pose proof (getCityFromCoords_requests net lat lon) as Hr.
  unfold fetchWeatherByCoordinates_try, requests, outcome, bind in *.
  destruct (fetchWeatherData net c lat lon) as [log [e | data]]; cbn [fst snd].
  - split; reflexivity.
  - destruct (getCityFromCoords net lat lon) as [log' [e | name]];
      cbn [fst snd] in *; subst; split; reflexivity.
Qed.

(** X13. fetchWeatherByCoordinates when the weather fetch succeeds: whatever the
    reverse geocoder does, the handler succeeds; the record on display is
    the fetched one with the label resolved by getCityFromCoords as its
    location, the error is cleared, loading is false, the query field is
    untouched, and the requests were current, forecast, reverse, in that
    order. *)
Theorem fetchWeatherByCoordinates_success (net : Network) (c : Clock)
    (lat lon : number) (st : AppState) (data : WeatherData) :
  outcome (fetchWeatherData net c lat lon) = inr data ->
  exists locationName,
    outcome (getCityFromCoords net lat lon) = inr locationName
    /\ fst (fetchWeatherByCoordinates net c lat lon st)
       = {| searchQuery := searchQuery st;
            weatherData := Some (withLocation data locationName);
            loading := false;
            error := None |}
    /\ snd (fetchWeatherByCoordinates net c lat lon st)
       = [GetWeather lat lon; GetForecast lat lon; GetReverse lat lon].
Proof.
  intros H.
  destruct (getCityFromCoords_never_throws net lat lon) as (locationName & Hname).
  exists locationName. split; [exact Hname |].
  destruct (try_requests net c lat lon) as [Hreq Hout].
  rewrite H in Hreq, Hout. rewrite Hname in Hout.
  destruct (fetchWeatherData_inr _ _ _ _ _ H) as (cur & fc & _ & Hlog).
  rewrite Hlog in Hreq.
  unfold fetchWeatherByCoordinates. rewrite Hout, Hreq. split; reflexivity.
Qed.

Lemma fetchWeatherByCoordinates_success_witness :
  exists data locationName,
    outcome (getCityFromCoords MoreSamples.reverseDown
               Samples.newYorkLat Samples.newYorkLon) = inr locationName
    /\ fst (fetchWeatherByCoordinates MoreSamples.reverseDown Samples.utcClock
              Samples.newYorkLat Samples.newYorkLon (Samples.blankPage "Oslo"))
       = {| searchQuery := "Oslo";
            weatherData := Some (withLocation data locationName);
            loading := false;
            error := None |}
    /\ snd (fetchWeatherByCoordinates MoreSamples.reverseDown Samples.utcClock
              Samples.newYorkLat Samples.newYorkLon (Samples.blankPage "Oslo"))
       = [GetWeather Samples.newYorkLat Samples.newYorkLon;
          GetForecast Samples.newYorkLat Samples.newYorkLon;
          GetReverse Samples.newYorkLat Samples.newYorkLon].
Proof.
  eexists.
  apply (fetchWeatherByCoordinates_success MoreSamples.reverseDown Samples.utcClock
           Samples.newYorkLat Samples.newYorkLon (Samples.blankPage "Oslo")).
  vm_compute. reflexivity.
Defined.

(** X14. After fetchWeatherByCoordinates the page always holds a record and is
    not loading, and the query field is as before; the record held before
    is replaced only when the weather fetch succeeds; and when the weather
    fetch fails, the reverse geocoder is never called. *)
Theorem fetchWeatherByCoordinates_leaves_a_record (net : Network) (c : Clock)
    (lat lon : number) (st : AppState) :
  weatherData (fst (fetchWeatherByCoordinates net c lat lon st)) <> None
  /\ loading (fst (fetchWeatherByCoordinates net c lat lon st)) = false
  /\ searchQuery (fst (fetchWeatherByCoordinates net c lat lon st)) = searchQuery st
  /\ (forall err held,
        outcome (fetchWeatherData net c lat lon) = inl err ->
        weatherData st = Some held ->
        weatherData (fst (fetchWeatherByCoordinates net c lat lon st)) = Some held)
  /\ (forall err,
        outcome (fetchWeatherData net c lat lon) = inl err ->
        forall la lo,
          ~ In (GetReverse la lo) (snd (fetchWeatherByCoordinates net c lat lon st))).
Proof.
  destruct (try_requests net c lat lon) as [Hreq Hout].
  destruct (getCityFromCoords_never_throws net lat lon) as (locationName & Hname).
  rewrite Hname in Hout.
  unfold fetchWeatherByCoordinates. rewrite Hout, Hreq.
  destruct (outcome (fetchWeatherData net c lat lon)) as [e | data] eqn:Hw.
  - destruct (weatherData st) as [held |] eqn:Hheld; cbn; rewrite ?Hheld;
      (split; [discriminate |]); (split; [reflexivity |]); (split; [reflexivity |]);
      (split; [intros err held' _ Hh; congruence |]);
      intros err _ la lo Hin;
      destruct (fetchWeatherData_requests net c lat lon) as [E | E];
      rewrite E in Hin; cbn in Hin; intuition discriminate.
  - cbn. split; [discriminate |]. split; [reflexivity |]. split; [reflexivity |].
    split; intros; discriminate.
Qed.





(** X16. Declining the location prompt closes the modal and leaves the page
    with a record: the one it held, else the hardcoded fallback record.
    Because that record counts as held, a later fetchWeatherByCoordinates
    whose weather fetch fails keeps it and sets no error at all. *)
Theorem declined_page_fails_silently (net : Network) (c : Clock) (lat lon : number)
    (st : AppState) (showPermissionModal : bool) (err : JsError) :
  outcome (fetchWeatherData net c lat lon) = inl err ->
  let declined := fst (handleDenyLocation st showPermissionModal) in
  let after := fst (fetchWeatherByCoordinates net c lat lon declined) in
  snd (handleDenyLocation st showPermissionModal) = false
  /\ weatherData declined
     = Some (match weatherData st with
             | Some held => held
             | None => fallbackWeatherData
             end)
  /\ weatherData after = weatherData declined
  /\ error after = None
  /\ loading after = false.
Proof.
  intros H declined after. subst declined after.
  destruct (try_requests net c lat lon) as [_ Hout]. rewrite H in Hout.
  unfold fetchWeatherByCoordinates, handleDenyLocation. rewrite Hout.
  destruct (weatherData st) as [held |] eqn:Hheld;
    cbn; rewrite ?Hheld; cbn; rewrite ?Hheld; repeat split.
Qed.

Lemma declined_page_fails_silently_witness :
  let declined := fst (handleDenyLocation (Samples.blankPage EmptyString) true) in
  let after := fst (fetchWeatherByCoordinates Samples.offline Samples.utcClock
                      Samples.newYorkLat Samples.newYorkLon declined) in
  weatherData after = Some fallbackWeatherData /\ error after = None.
Proof.
  destruct (declined_page_fails_silently Samples.offline Samples.utcClock
              Samples.newYorkLat Samples.newYorkLon (Samples.blankPage EmptyString)
              true Samples.failedToFetch) as (_ & Hd & Hw & He & _).
  - reflexivity.
  - split; [rewrite Hw; exact Hd | exact He].
Defined.

(** X17. What the page shows of the resolver's error after a call of
    requestGeolocation: the error is shown exactly when the permission is
    reported as false (the 'unsupported' and 'denied' states, which always
    carry a message); in the 'granted' and 'fallback' states the page error
    is cleared, so the advisory of the fallback is never displayed.  The
    record, the query and the loading flag are untouched. *)
Theorem geoErrorEffect_after_request (nav : Navigator) (h : Hook) (st : AppState) :
  let geo := UseGeolocation.state (fst (requestGeolocation nav h)) in
  error (geoErrorEffect geo st)
  = match UseGeolocation.permissionGranted geo with
    | Some false => UseGeolocation.error geo
    | _ => None
    end
  /\ (UseGeolocation.permissionGranted geo = Some false ->
      UseGeolocation.error geo <> None)
  /\ weatherData (geoErrorEffect geo st) = weatherData st
  /\ searchQuery (geoErrorEffect geo st) = searchQuery st
  /\ loading (geoErrorEffect geo st) = loading st.
Proof.
  intros geo. subst geo.
  destruct (requestGeolocation_state nav h) as (-> & _).
  unfold geoErrorEffect.
  run_paths; try (destruct (isFirefox h)); cbn;
    repeat split; intros; discriminate.
Qed.

(** X18. The permission modal is opened by its effect when the hook is mounted
    (permissionGranted is null) and never again after a call of
    requestGeolocation, whatever its outcome: the effect then leaves
    showPermissionModal as it is. *)
Theorem permissionModal_opens_once (nav : Navigator) (h : Hook) (showPermissionModal : bool) :
  permissionModalEffect (UseGeolocation.permissionGranted initialState)
    showPermissionModal = true
  /\ permissionModalEffect
       (UseGeolocation.permissionGranted
          (UseGeolocation.state (fst (requestGeolocation nav h))))
       showPermissionModal = showPermissionModal.
Proof.
  split; [reflexivity |].
  destruct (requestGeolocation_state nav h) as (-> & _).
  run_paths; reflexivity.
Qed.

(** X19. From a failed position request to the label on the page. When the
    position request fails with a code other than 1, the coordinates
    effect fetches the weather for the fallback coordinates; if reverse
    geocoding fails there (rejected call or non-success status) and the
    page held no record, the record shown afterwards is located "NEW YORK,
    US", whether the weather fetch succeeded or not. *)
Theorem fallback_is_labelled_new_york (nav : Navigator) (h : Hook) (code : Z)
    (message : string) (net : Network) (c : Clock) (st : AppState) :
  geolocation nav = true ->
  permissions nav <> Some (QueryResolves "denied") ->
  getCurrentPosition nav (geoOptions (isFirefox h)) = PositionFailed code message ->
  code <> 1 ->
  match reverseApi net 40.7128%float (- 74.0060)%float with
  | Rejected _ => True
  | Responded response => ok response = false
  end ->
  weatherData st = None ->
  let geo := UseGeolocation.state (fst (requestGeolocation nav h)) in
  let shown := fst (coordinatesEffect net c geo st) in
  exists record,
    weatherData shown = Some record
    /\ location record = "NEW YORK, US"
    /\ hd_error (snd (coordinatesEffect net c geo st))
       = Some (GetWeather 40.7128%float (- 74.0060)%float).
Proof.
  intros Hgeo Hperm Hpos Hcode Hrev Hnone geo shown. subst geo shown.
  destruct (requestGeolocation_requests_position nav h Hgeo Hperm) as [-> _].
  unfold requestPosition. rewrite andThen_fst, Hpos.
  destruct (onError_falls_back (isFirefox h) code message Hcode) as (errorMessage & ->).
  rewrite useFallbackLocation_state. unfold coordinatesEffect.
  cbn [UseGeolocation.coordinates UseGeolocation.lat UseGeolocation.lon].
  set (la := 40.7128%float) in *. set (lo := (- 74.0060)%float) in *.
  assert (Hlabel : outcome (getCityFromCoords net la lo) = inr "NEW YORK, US").
  { rewrite getCityFromCoords_outcome.
    destruct (reverseApi net la lo) as [e | response]; [reflexivity |].
    rewrite Hrev. reflexivity. }
  destruct (try_requests net c la lo) as [Hreq Hout]. rewrite Hlabel in Hout.
  unfold fetchWeatherByCoordinates. rewrite Hout, Hreq, Hnone.
  destruct (fetchWeatherData_requests net c la lo) as [E | E]; rewrite E;
    destruct (outcome (fetchWeatherData net c la lo)) as [e | data];
    cbn; eexists; repeat split.
Qed.

Lemma fallback_is_labelled_new_york_witness :
  let geo := UseGeolocation.state (fst (requestGeolocation Samples.timesOut Samples.mounted)) in
  let shown := fst (coordinatesEffect MoreSamples.reverseDown Samples.utcClock geo
                      (Samples.blankPage EmptyString)) in
  exists record,
    weatherData shown = Some record
    /\ location record = "NEW YORK, US"
    /\ hd_error (snd (coordinatesEffect MoreSamples.reverseDown Samples.utcClock geo
                        (Samples.blankPage EmptyString)))
       = Some (GetWeather 40.7128%float (- 74.0060)%float).
Proof.
  apply (fallback_is_labelled_new_york Samples.timesOut Samples.mounted 3
           "Timeout expired" MoreSamples.reverseDown Samples.utcClock
           (Samples.blankPage EmptyString)).
  - reflexivity.
  - discriminate.
  - reflexivity.
  - lia.
  - exact I.
  - reflexivity.
Defined.


(* ================================================================== *)
(** * Properties of the icons and of the clock                         *)
(* ================================================================== *)

Import JsText Lucide.

(** X20. The forecast card agrees with the page wherever the page has a
    specific icon: when the page's getWeatherIcon does not fall to its
    default (Cloud), the card's getWeatherIcon returns the same icon for
    the same condition. *)
Theorem card_icon_agrees_with_page (condition : string) :
  WeatherAppEffects.getWeatherIcon condition <> Cloud ->
  WeatherForecast.getWeatherIcon condition = WeatherAppEffects.getWeatherIcon condition.
Proof.
  unfold WeatherAppEffects.getWeatherIcon, WeatherForecast.getWeatherIcon.
  destruct (String.eqb_spec (toLowerCase condition) "clear") as [-> | _];
    [reflexivity |].
  destruct (String.eqb_spec (toLowerCase condition) "sunny") as [-> | _];
    [reflexivity |].
  destruct (String.eqb_spec (toLowerCase condition) "rain") as [-> | _];
    [reflexivity |].
  destruct (String.eqb_spec (toLowerCase condition) "rainy") as [-> | _];
    [reflexivity |].
  destruct (String.eqb_spec (toLowerCase condition) "drizzle") as [-> | _];
    [reflexivity |].
  cbn. intros H. contradiction H. reflexivity.
Qed.

Lemma card_icon_agrees_with_page_witness :
  WeatherForecast.getWeatherIcon "Drizzle" = WeatherAppEffects.getWeatherIcon "Drizzle".
Proof.
  apply (card_icon_agrees_with_page "Drizzle"). vm_compute. discriminate.
Defined.

Lemma lowerChar_upperChar (ch : ascii) : lowerChar (upperChar ch) = lowerChar ch.
Proof.
  destruct ch as [b0 b1 b2 b3 b4 b5 b6 b7];
    destruct b0, b1, b2, b3, b4, b5, b6, b7; reflexivity.
Qed.

Lemma toLowerCase_toUpperCase (s : string) :
  toLowerCase (toUpperCase s) = toLowerCase s.
Proof.
  unfold toLowerCase, toUpperCase.
  induction s as [| ch s IH]; [reflexivity |].
  cbn [mapString]. rewrite lowerChar_upperChar, IH. reflexivity.
Qed.

(** X21. The icons do not depend on the case of the condition: for an ASCII
    condition, both getWeatherIcon functions give the same icon for the
    condition and for its upper-cased form, which is the form the formatter
    stores in the record. *)
Theorem icons_ignore_case (condition : string) :
  isAscii condition = true ->
  WeatherAppEffects.getWeatherIcon (toUpperCase condition)
  = WeatherAppEffects.getWeatherIcon condition
  /\ WeatherForecast.getWeatherIcon (toUpperCase condition)
     = WeatherForecast.getWeatherIcon condition.
Proof.
  intros _.
  unfold WeatherAppEffects.getWeatherIcon, WeatherForecast.getWeatherIcon.
  rewrite toLowerCase_toUpperCase. split; reflexivity.
Qed.

Lemma icons_ignore_case_witness :
  WeatherAppEffects.getWeatherIcon "RAIN" = CloudRain
  /\ WeatherForecast.getWeatherIcon "LIGHT RAIN" = CloudRain.
Proof.
  split.
  - destruct (icons_ignore_case "rain" eq_refl) as [H _]. exact H.
  - destruct (icons_ignore_case "light rain" eq_refl) as [_ H]. exact H.
Defined.

(** The clock text for an hour and a minute, and the check that it splits
    back into its two halves, over a whole day. *)
Lemma clock_table :
  forallb (fun h =>
    forallb (fun m =>
      let hh := padStart2 (showZ (Z.of_nat h)) in
      let mm := padStart2 (showZ (Z.of_nat m)) in
      match split ":" (hh ++ ":" ++ mm)%string with
      | [a; b] => (a =? hh)%string && (b =? mm)%string
                  && (String.length hh =? 2)%nat && (String.length mm =? 2)%nat
      | _ => false
      end) (seq 0 60)) (seq 0 24) = true.
Proof. vm_compute. reflexivity. Qed.

(** X22. The header clock. Whatever the time and the time zone, splitting the
    text stored by updateTime on ':', as the header does, gives back
    exactly two parts: the hour and the minute, each of exactly two
    characters after padding. *)
Theorem updateTime_splits (c : Clock) :
  split ":" (updateTime c)
  = [padStart2 (showZ (getHours c (now c))); padStart2 (showZ (getMinutes c (now c)))]
  /\ String.length (padStart2 (showZ (getHours c (now c)))) = 2%nat
  /\ String.length (padStart2 (showZ (getMinutes c (now c)))) = 2%nat.
Proof.
  unfold updateTime.
  assert (Hh : 0 <= getHours c (now c) < 24) by (apply Z.mod_pos_bound; lia).
  assert (Hm : 0 <= getMinutes c (now c) < 60) by (apply Z.mod_pos_bound; lia).
  set (h := getHours c (now c)) in *. set (m := getMinutes c (now c)) in *.
  assert (Hin_h : In (Z.to_nat h) (seq 0 24)) by (apply in_seq; lia).
  assert (Hin_m : In (Z.to_nat m) (seq 0 60)) by (apply in_seq; lia).
  pose proof (proj1 (forallb_forall _ _) clock_table _ Hin_h) as T.
  cbv beta in T.
  pose proof (proj1 (forallb_forall _ _) T _ Hin_m) as T'.
  clear T. rename T' into T.
  cbv beta zeta in T. rewrite !Z2Nat.id in T by lia.
  destruct (split ":" (padStart2 (showZ h) ++ ":" ++ padStart2 (showZ m)))
    as [| a [| b [| x rest]]]; try discriminate T.
  apply andb_true_iff in T. destruct T as [T Tm].
  apply andb_true_iff in T. destruct T as [T Th].
  apply andb_true_iff in T. destruct T as [Ta Tb].
  apply String.eqb_eq in Ta, Tb. apply Nat.eqb_eq in Th, Tm. subst a b.
  repeat split; assumption.
Qed.


(* ================================================================== *)
(** * Invariants                                                       *)
(* ================================================================== *)

Lemma pushItem_permutation (d : Z) (x : ForecastItem) (m : ByDay) :
  Permutation (concat (map snd (pushItem d x m))) (x :: concat (map snd m)).
Proof.
  induction m as [| [k items] rest IH]; cbn [pushItem map concat snd].
  - cbn. apply Permutation_refl.
  - destruct (k =? d); cbn [map concat snd].
    + rewrite <- app_assoc. cbn [app].
      apply Permutation_sym, Permutation_middle.
    + apply Permutation_trans with (items ++ x :: concat (map snd rest)).
      * apply Permutation_app_head, IH.
      * apply Permutation_sym, Permutation_middle.
Qed.

(** X23. The first loop of the formatter partitions the feed. Whenever it
    completes, the days of its table are pairwise distinct, every group is
    non-empty and holds only entries of its own UTC day, and the groups
    together hold exactly the entries of the feed: none is lost, none is
    duplicated. *)
Theorem groupByDay_partitions (l : list ForecastItem) (m : ByDay) :
  groupByDay l = inr m ->
  NoDup (map fst m)
  /\ Forall (fun g => snd g <> []
                      /\ Forall (fun item => utcDate (itemTime item) = fst g) (snd g)) m
  /\ Permutation (concat (map snd m)) l.
Proof.
  intros H. split; [| split].
  - destruct (groupByDay_inr _ _ H) as [-> _].
    rewrite groups_keys. apply firstSeen_NoDup.
  - destruct (groupByDay_inr _ _ H) as [-> _].
    unfold groupsByCalendarDay. apply Forall_forall. intros g Hg.
    apply in_map_iff in Hg. destruct Hg as (d & <- & Hd). cbn [fst snd]. split.
    + apply itemsOfDay_nonempty. apply firstSeen_In. exact Hd.
    + apply Forall_forall. intros item Hitem. apply filter_In in Hitem.
      destruct Hitem as [_ E]. apply Z.eqb_eq in E. exact E.
  - revert m H. induction l as [| x l IH] using rev_ind; intros m H.
    + unfold groupByDay in H. cbn in H. injection H as <-. apply Permutation_refl.
    + rewrite groupByDay_snoc in H. unfold groupStep, rbind in H.
      destruct (groupByDay l) as [e | m'] eqn:Hg; [discriminate |].
      destruct (validTime (itemTime x)); [| discriminate].
      injection H as <-.
      apply Permutation_trans with (x :: concat (map snd m')).
      * apply pushItem_permutation.
      * apply Permutation_trans with (x :: l).
        -- apply perm_skip, IH. reflexivity.
        -- apply Permutation_cons_append.
Qed.

Lemma groupByDay_partitions_witness :
  exists m,
    groupByDay (fd_list Samples.twoDays) = inr m
    /\ Permutation (concat (map snd m)) (fd_list Samples.twoDays).
Proof.
  eexists. split; [vm_compute; reflexivity |].
  apply groupByDay_partitions. vm_compute. reflexivity.
Defined.

(** X24. The page never loses its record. Once a record is held, none of the
    operations that write the page state (fetchWeatherByCoordinates,
    handleSearch, handleDenyLocation and the effect on the resolver's
    error) leaves the page without one, whatever the network answers. *)
Theorem page_never_loses_its_record (net : Network) (c : Clock) (st : AppState) :
  weatherData st <> None ->
  (forall lat lon, weatherData (fst (fetchWeatherByCoordinates net c lat lon st)) <> None)
  /\ weatherData (fst (handleSearch net c st)) <> None
  /\ (forall showPermissionModal,
        weatherData (fst (handleDenyLocation st showPermissionModal)) = weatherData st)
  /\ (forall geo, weatherData (geoErrorEffect geo st) = weatherData st).
Proof.
  intros Hheld. destruct (weatherData st) as [held |] eqn:Hw; [| contradiction].
  split; [| split; [| split]].
  - intros lat lon. unfold fetchWeatherByCoordinates. rewrite Hw.
    destruct (outcome (fetchWeatherByCoordinates_try net c lat lon));
      cbn; rewrite ?Hw; discriminate.
  - unfold handleSearch.
    destruct (negb (nonEmpty (trim (searchQuery st)))); cbn [fst];
      [rewrite Hw; discriminate |].
    destruct (outcome (fetchWeatherByCity net c (searchQuery st)));
      cbn; rewrite ?Hw; discriminate.
  - intros showPermissionModal. unfold handleDenyLocation. rewrite Hw. cbn. exact Hw.
  - intros geo. unfold geoErrorEffect.
    destruct (UseGeolocation.error geo) as [geoError |]; [| exact Hw].
    destruct (nonEmpty geoError); [| exact Hw].
    match goal with |- context [if ?b then _ else _] => destruct b end; exact Hw.
Qed.

Lemma page_never_loses_its_record_witness :
  weatherData (fst (handleDenyLocation (Samples.showing "Atlantis") true))
  = weatherData (Samples.showing "Atlantis").
Proof.
  destruct (page_never_loses_its_record Samples.cityUnknown Samples.utcClock
              (Samples.showing "Atlantis")) as (_ & _ & H & _).
  - discriminate.
  - apply H.
Defined.
